(** * Legacy trading risk-management module: a shallow embedding

    The C++ translation unit [sample_legacy_trading.cpp] holds one class,
    [TradingRiskManager], whose methods print diagnostics on [std::cout]
    and return a [bool], and one free function, [calculateRiskScore].

    - [double] is IEEE-754 binary64: Rocq's primitive [float], whose
      operations are specified by [SpecFloat] at [prec = 53], [emax = 1024].
      Division is total (x/0 is an infinity or a NaN), comparisons with a
      NaN are false.
    - [int] fields are only compared, never computed with: they are [Z].
    - [std::string] is [string]; [==] is [String.eqb].
    - [std::map<int, T>] is a [gmap Z T]; [operator[]] inserts a
      value-initialised entry when the key is absent.
    - a method is a computation in a state-and-output monad over the two
      private maps; an early [return] is the [else]-less branch of an [if]. *)

From Stdlib Require Import ZArith String List Floats Lia Bool.
From stdpp Require Import gmap strings.

Set Warnings "-inexact-float".

Import ListNotations.
Local Open Scope string_scope.
Local Open Scope Z_scope.

(** * The program *)

(** ** Numbers *)

Abbreviation double := float.

(** Implicit conversion [int -> double] (exact for every 32-bit [int]). *)
Definition double_of_int (z : Z) : double :=
  SF2Prim (binary_normalize prec emax z 0 false).

(** [a > b] on doubles is [b < a]. *)
Definition dgt (a b : double) : bool := PrimFloat.ltb b a.
Definition dlt (a b : double) : bool := PrimFloat.ltb a b.

(** ** Business rule constants (lines 14-26) *)

Definition MAX_POSITION_SIZE : double := 10000000%float.
Definition MAX_DAILY_LOSS : double := 500000%float.
Definition MIN_ACCOUNT_BALANCE : double := 50000%float.
Definition MAX_LEVERAGE_RATIO : double := 10%float.
Definition HIGH_RISK_THRESHOLD : double := 0.75%float.
Definition MAX_TRADES_PER_DAY : Z := 100.
Definition MARGIN_CALL_THRESHOLD : double := 0.25%float.
Definition FORCED_LIQUIDATION : double := 0.10%float.
Definition MIN_TRADING_EXPERIENCE : Z := 2.
Definition MAX_SECTOR_CONCENTRATION : double := 0.30%float.
Definition VIX_HALT_THRESHOLD : double := 40%float.
Definition MAX_ORDER_SIZE : double := 1000000%float.
Definition PATTERN_DAY_TRADER_LIMIT : Z := 25000.

(** ** Data model (lines 28-58) *)

Record TraderProfile := {
  trader_id : Z;
  trader_name : string;
  experience_years : Z;
  risk_level : string;
  account_balance : double;
  available_margin : double;
  trader_type : string;
  is_accredited : bool;
  jurisdiction : string
}.

Record TradeOrder := {
  order_id : Z;
  symbol : string;
  order_type : string;
  quantity : double;
  price : double;
  time_in_force : string;
  is_margin_trade : bool;
  sector : string;
  volatility_score : double
}.

(** ([symbol] is taken by [TradeOrder]: the position's field is
    [pos_symbol].) *)
Record PortfolioPosition := {
  pos_symbol : string;
  current_value : double;
  unrealized_pnl : double;
  sector_exposure : double;
  risk_category : string
}.

(** The private members of [TradingRiskManager] (lines 62-63). *)
Record TradingRiskManager := {
  daily_trade_counts : gmap Z Z;
  daily_losses : gmap Z double
}.

(** ** The monad of a method: state of the object, lines written to cout *)

Definition M (A : Type) : Type :=
  TradingRiskManager -> A * TradingRiskManager * list string.

#[global] Instance M_ret : MRet M := fun A (a : A) s => (a, s, []).

#[global] Instance M_bind : MBind M := fun A B (f : A -> M B) (m : M A) s =>
  let '(a, s1, o1) := m s in
  let '(b, s2, o2) := f a s1 in
  (b, s2, (o1 ++ o2)%list).

(** [std::cout << msg << std::endl] *)
Definition cout (msg : string) : M unit := fun s => (tt, s, [msg]).

(** [if (c) { body }] with no [else] and no [return] inside. *)
Definition when (c : bool) (body : M unit) : M unit :=
  if c then body else mret tt.

(** [daily_trade_counts[id]] read as an rvalue: [std::map::operator[]]
    value-initialises a missing entry to [0] and keeps it in the map. *)
Definition trade_count_at (id : Z) : M Z := fun s =>
  match daily_trade_counts s !! id with
  | Some n => (n, s, [])
  | None =>
      (0, {| daily_trade_counts := <[id := 0]> (daily_trade_counts s);
             daily_losses := daily_losses s |}, [])
  end.

(** [daily_losses[id]] read as an rvalue, likewise. *)
Definition loss_at (id : Z) : M double := fun s =>
  match daily_losses s !! id with
  | Some x => (x, s, [])
  | None =>
      (0%float, {| daily_trade_counts := daily_trade_counts s;
                   daily_losses := <[id := 0%float]> (daily_losses s) |}, [])
  end.

(** [daily_losses[id] += x] *)
Definition loss_add (id : Z) (x : double) : M unit := fun s =>
  let old := default 0%float (daily_losses s !! id) in
  (tt, {| daily_trade_counts := daily_trade_counts s;
          daily_losses := <[id := (old + x)%float]> (daily_losses s) |}, []).

(** What a caller observes of a call: the returned flag and the lines. *)
Definition returned {A} (r : A * TradingRiskManager * list string) : A :=
  fst (fst r).
Definition state_after {A} (r : A * TradingRiskManager * list string)
  : TradingRiskManager := snd (fst r).
Definition printed {A} (r : A * TradingRiskManager * list string)
  : list string := snd r.

(** ** The methods of [TradingRiskManager] *)

(** [validateTraderEligibility] (lines 68-99). *)
Definition validateTraderEligibility (trader : TraderProfile) : M bool :=
  if experience_years trader <? MIN_TRADING_EXPERIENCE then
    cout "REJECTED: Trader lacks minimum experience";; mret false
  else if dlt (account_balance trader) MIN_ACCOUNT_BALANCE then
    cout "REJECTED: Insufficient account balance";; mret false
  else if (jurisdiction trader =? "RESTRICTED")%string
          || (jurisdiction trader =? "SANCTIONED")%string then
    cout "REJECTED: Trader from restricted jurisdiction";; mret false
  else if (risk_level trader =? "HIGH")%string && negb (is_accredited trader) then
    cout "REJECTED: High-risk trading requires accreditation";; mret false
  else
    when ((trader_type trader =? "RETAIL")%string
          && dlt (account_balance trader) (double_of_int PATTERN_DAY_TRADER_LIMIT))
      (cout "WARNING: Pattern Day Trader restrictions apply");;
    mret true.

(** [validateTradeOrder] (lines 102-151).  The nested [if]s of the short
    selling and margin rules have no side effect in their conditions, so
    each pair is one conjunction. *)
Definition validateTradeOrder (order : TradeOrder) (trader : TraderProfile)
  : M bool :=
  let order_value := (quantity order * price order)%float in
  if dgt order_value MAX_ORDER_SIZE then
    cout "REJECTED: Order size exceeds maximum allowed";; mret false
  else if dgt (volatility_score order) 0.8%float
          && (risk_level trader =? "LOW")%string then
    cout "REJECTED: High volatility instrument not allowed for low-risk trader";;
    mret false
  else if (order_type order =? "SHORT")%string
          && ((trader_type trader =? "RETAIL")%string
              && dgt order_value 100000%float) then
    cout "REJECTED: Large short positions restricted for retail traders";;
    mret false
  else if is_margin_trade order
          && dlt (available_margin trader) (order_value * 0.5)%float then
    cout "REJECTED: Insufficient margin for trade";; mret false
  else
    n ← trade_count_at (trader_id trader);
    if n >=? MAX_TRADES_PER_DAY then
      cout "REJECTED: Daily trade limit exceeded";; mret false
    else
      when (negb (sector order =? "DIVERSIFIED")%string)
        (cout "INFO: Checking sector concentration limits");;
      if (time_in_force order =? "EXTENDED_HOURS")%string
         && (experience_years trader <? 5) then
        cout "REJECTED: Insufficient experience for after-hours trading";;
        mret false
      else mret true.

Section Portfolio.

(** The unqualified [abs] of line 165.  The file includes no header that
    declares it; which overload the call resolves to ([int abs(int)] of
    the C library, with its double -> int -> double conversions, or
    [double std::abs(double)]) is the standard library's choice, so the
    function is a parameter of the embedding. *)
Variable c_abs : double -> double.

(** The three accumulators of the first loop (lines 156-171). *)
Record Metrics := {
  total_portfolio_value : double;
  total_unrealized_loss : double;
  high_risk_exposure : double
}.

Definition metrics_step (a : Metrics) (position : PortfolioPosition)
  : Metrics :=
  {| total_portfolio_value :=
       (total_portfolio_value a + current_value position)%float;
     total_unrealized_loss :=
       if dlt (unrealized_pnl position) (double_of_int 0)
       then (total_unrealized_loss a + c_abs (unrealized_pnl position))%float
       else total_unrealized_loss a;
     high_risk_exposure :=
       if (risk_category position =? "HIGH_RISK")%string
       then (high_risk_exposure a + current_value position)%float
       else high_risk_exposure a |}.

Definition portfolio_metrics (positions : list PortfolioPosition) : Metrics :=
  fold_left metrics_step positions
    {| total_portfolio_value := 0%float;
       total_unrealized_loss := 0%float;
       high_risk_exposure := 0%float |}.

(** The second loop (lines 179-189): [Some b] when the loop body
    executed [return b], [None] when the loop ran to its end. *)
Fixpoint position_size_limits (total : double)
         (positions : list PortfolioPosition) : M (option bool) :=
  match positions with
  | [] => mret None
  | position :: rest =>
      if dgt (current_value position) MAX_POSITION_SIZE then
        cout "VIOLATION: Position size exceeds maximum allowed";;
        mret (Some false)
      else
        when (dgt (current_value position) (total * 0.20)%float)
          (cout "WARNING: Single position exceeds 20% of portfolio");;
        position_size_limits total rest
  end.

(** Lines 197-214: leverage ratio, margin call, forced liquidation. *)
Definition leverage_ratio (total balance : double) : double :=
  (total / balance)%float.
Definition margin_equity_ratio (total balance : double) : double :=
  (balance / total)%float.

Definition leverage_and_margin_checks (total balance : double) : M bool :=
  if dgt (leverage_ratio total balance) MAX_LEVERAGE_RATIO then
    cout "VIOLATION: Leverage ratio exceeds maximum allowed";; mret false
  else
    when (dlt (margin_equity_ratio total balance) MARGIN_CALL_THRESHOLD)
      (cout "MARGIN CALL: Account below margin maintenance requirement");;
    if dlt (margin_equity_ratio total balance) FORCED_LIQUIDATION then
      cout "FORCED LIQUIDATION: Account below liquidation threshold";;
      mret false
    else mret true.

(** Lines 173-195, up to and including the high-risk exposure rule:
    [Some b] when one of them executed [return b]. *)
Definition loss_size_and_exposure_checks
           (positions : list PortfolioPosition) (trader : TraderProfile)
  : M (option bool) :=
  let m := portfolio_metrics positions in
  when (dgt (total_unrealized_loss m) (account_balance trader * 0.20)%float)
    (cout "WARNING: Portfolio losses exceed 20% of account balance");;
  r ← position_size_limits (total_portfolio_value m) positions;
  match r with
  | Some b => mret (Some b)
  | None =>
      if dgt (high_risk_exposure m)
             (total_portfolio_value m * HIGH_RISK_THRESHOLD)%float then
        cout "VIOLATION: High-risk exposure exceeds threshold";;
        mret (Some false)
      else mret None
  end.

(** [validatePortfolioRisk] (lines 154-217). *)
Definition validatePortfolioRisk (positions : list PortfolioPosition)
           (trader : TraderProfile) : M bool :=
  r ← loss_size_and_exposure_checks positions trader;
  match r with
  | Some b => mret b
  | None =>
      leverage_and_margin_checks
        (total_portfolio_value (portfolio_metrics positions))
        (account_balance trader)
  end.

End Portfolio.

(** [checkMarketConditions] (lines 220-239). *)
Definition checkMarketConditions (current_vix : double) (market_status : string)
  : M bool :=
  if dgt current_vix VIX_HALT_THRESHOLD then
    cout "TRADING HALT: Market volatility too high (VIX > 40)";; mret false
  else if (market_status =? "CLOSED")%string then
    cout "REJECTED: Market is closed for regular trading";; mret false
  else
    when (market_status =? "PRE_MARKET")%string
      (cout "RESTRICTED: Limited pre-market trading allowed");;
    mret true.

(** [checkDailyLossLimits] (lines 242-257). *)
Definition checkDailyLossLimits (trader_id : Z) (trade_loss : double) : M bool :=
  loss_add trader_id trade_loss;;
  c ← loss_at trader_id;
  if dgt c MAX_DAILY_LOSS then
    cout "TRADING SUSPENDED: Daily loss limit exceeded";; mret false
  else
    c' ← loss_at trader_id;
    when (dgt c' (MAX_DAILY_LOSS * 0.75)%float)
      (cout "WARNING: Approaching daily loss limit");;
    mret true.

(** [assessClientSuitability] (lines 260-294). *)
Definition assessClientSuitability (trader : TraderProfile)
           (product_type : string) : M bool :=
  if ((product_type =? "DERIVATIVES")%string
      || (product_type =? "STRUCTURED_PRODUCTS")%string)
     && ((trader_type trader =? "RETAIL")%string && negb (is_accredited trader))
  then
    cout "REJECTED: Complex products require accredited investor status";;
    mret false
  else if (product_type =? "HFT_ALGORITHMS")%string
          && negb (trader_type trader =? "PROPRIETARY")%string then
    cout "REJECTED: HFT algorithms restricted to proprietary traders";;
    mret false
  else if (product_type =? "INTERNATIONAL_EQUITIES")%string
          && (experience_years trader <? 5) then
    cout "REJECTED: International trading requires 5+ years experience";;
    mret false
  else if (product_type =? "CRYPTOCURRENCY")%string
          && ((jurisdiction trader =? "NY")%string
              || (jurisdiction trader =? "RESTRICTED_CRYPTO")%string) then
    cout "REJECTED: Cryptocurrency trading not allowed in jurisdiction";;
    mret false
  else mret true.

(** [validateOrderExecution] (lines 297-317). *)
Definition validateOrderExecution (order : TradeOrder) (venue : string)
  : M bool :=
  when (dgt (quantity order * price order)%float 500000%float
        && (negb (venue =? "DARK_POOL")%string
            && negb (venue =? "INSTITUTIONAL_NETWORK")%string))
    (cout "WARNING: Large orders should use dark pools");;
  when ((order_type order =? "MARKET")%string
        && dgt (quantity order) (double_of_int 10000))
    (cout "WARNING: Large market orders may have price impact");;
  if (venue =? "RETAIL_VENUE")%string
     && dgt (quantity order) (double_of_int 100000) then
    cout "REJECTED: Order too large for retail venue";; mret false
  else mret true.

(** ** The free function [calculateRiskScore] (lines 321-349) *)

Definition calculateRiskScore (trader : TraderProfile) (order : TradeOrder)
  : double :=
  let risk_score := 0%float in
  let risk_score :=
    if experience_years trader <? 3 then (risk_score + 0.3)%float
    else risk_score in
  let risk_score :=
    if dlt (account_balance trader) 100000%float then (risk_score + 0.2)%float
    else risk_score in
  let order_value := (quantity order * price order)%float in
  let risk_score :=
    if dgt order_value (account_balance trader * 0.1)%float
    then (risk_score + 0.4)%float else risk_score in
  let risk_score := (risk_score + volatility_score order * 0.5)%float in
  let risk_score :=
    if (sector order =? "BIOTECH")%string || (sector order =? "CRYPTO")%string
    then (risk_score + 0.3)%float else risk_score in
  risk_score.

(** ** The sample data of [main] (lines 355-378) *)

Definition sample_trader : TraderProfile :=
  {| trader_id := 123; trader_name := "John Trader"; experience_years := 5;
     risk_level := "MEDIUM"; account_balance := 250000%float;
     available_margin := 100000%float; trader_type := "RETAIL";
     is_accredited := true; jurisdiction := "US" |}.

Definition sample_order : TradeOrder :=
  {| order_id := 1001; symbol := "AAPL"; order_type := "BUY";
     quantity := 1000%float; price := 150%float; time_in_force := "DAY";
     is_margin_trade := false; sector := "TECHNOLOGY";
     volatility_score := 0.3%float |}.

(** A freshly constructed [TradingRiskManager]: both maps empty. *)
Definition fresh : TradingRiskManager :=
  {| daily_trade_counts := ∅; daily_losses := ∅ |}.

(** [main] (lines 351-388): the order is validated only for an eligible
    trader, and approved only when it is valid. *)
Definition main : M Z :=
  eligible ← validateTraderEligibility sample_trader;
  (if eligible : bool then
     valid ← validateTradeOrder sample_order sample_trader;
     when valid (cout "ORDER APPROVED")
   else (mret tt : M unit));;
  mret 0.

(** * What a caller can observe of the manager *)

(** The cumulative loss the manager holds for a trader; a trader with no
    entry has lost nothing so far. *)
Definition cumulative_loss (s : TradingRiskManager) (id : Z) : double :=
  default 0%float (daily_losses s !! id).

(** The trades-today count the manager holds for a trader (0 when the
    trader has no entry). *)
Definition trades_today (s : TradingRiskManager) (id : Z) : Z :=
  default 0 (daily_trade_counts s !! id).

(** The manager with the cumulative loss of [id] set to [x]. *)
Definition loss_recorded (s : TradingRiskManager) (id : Z) (x : double)
  : TradingRiskManager :=
  {| daily_trade_counts := daily_trade_counts s;
     daily_losses := <[id := x]> (daily_losses s) |}.

(** The manager after [daily_trade_counts[id]] was evaluated: unchanged
    when the trader has an entry, with a new entry [id -> 0] otherwise. *)
Definition entry_created (s : TradingRiskManager) (id : Z) : TradingRiskManager :=
  match daily_trade_counts s !! id with
  | Some _ => s
  | None => {| daily_trade_counts := <[id := 0]> (daily_trade_counts s);
               daily_losses := daily_losses s |}
  end.

Definition SUSPENDED_LINE : string :=
  "TRADING SUSPENDED: Daily loss limit exceeded".
Definition APPROACHING_LINE : string :=
  "WARNING: Approaching daily loss limit".
Definition PDT_LINE : string := "WARNING: Pattern Day Trader restrictions apply".

Definition is_rejection_line (line : string) : bool :=
  String.prefix "REJECTED" line.

(** * The order validation group as the specification words it

    Six rejection rules in a fixed order, each a predicate of the order,
    the trader and the trader's trades-today count, and each with its
    reason; the group reports the first rule that rejects. *)

Inductive OrderRule :=
| OrderSize | VolatilityLowTier | RetailShortSize
| MarginSufficiency | DailyTradeLimit | ExtendedHoursExperience.

Definition order_rules : list OrderRule :=
  [OrderSize; VolatilityLowTier; RetailShortSize;
   MarginSufficiency; DailyTradeLimit; ExtendedHoursExperience].

(** Position of a rule in the fixed order. *)
Definition rule_index (rule : OrderRule) : nat :=
  match rule with
  | OrderSize => 0 | VolatilityLowTier => 1 | RetailShortSize => 2
  | MarginSufficiency => 3 | DailyTradeLimit => 4
  | ExtendedHoursExperience => 5
  end%nat.

Definition rejects (order : TradeOrder) (trader : TraderProfile)
           (trades : Z) (rule : OrderRule) : bool :=
  let order_value := (quantity order * price order)%float in
  match rule with
  | OrderSize => dgt order_value 1000000%float
  | VolatilityLowTier =>
      dgt (volatility_score order) 0.8%float
      && (risk_level trader =? "LOW")%string
  | RetailShortSize =>
      (order_type order =? "SHORT")%string
      && ((trader_type trader =? "RETAIL")%string
          && dgt order_value 100000%float)
  | MarginSufficiency =>
      is_margin_trade order
      && dlt (available_margin trader) (order_value * 0.5)%float
  | DailyTradeLimit => trades >=? 100
  | ExtendedHoursExperience =>
      (time_in_force order =? "EXTENDED_HOURS")%string
      && (experience_years trader <? 5)
  end.

Definition reason (rule : OrderRule) : string :=
  match rule with
  | OrderSize => "REJECTED: Order size exceeds maximum allowed"
  | VolatilityLowTier =>
      "REJECTED: High volatility instrument not allowed for low-risk trader"
  | RetailShortSize =>
      "REJECTED: Large short positions restricted for retail traders"
  | MarginSufficiency => "REJECTED: Insufficient margin for trade"
  | DailyTradeLimit => "REJECTED: Daily trade limit exceeded"
  | ExtendedHoursExperience =>
      "REJECTED: Insufficient experience for after-hours trading"
  end.

Definition first_rejection (order : TradeOrder) (trader : TraderProfile)
           (trades : Z) : option OrderRule :=
  find (rejects order trader trades) order_rules.

(** The rules that come before the trades-today count is read. *)
Definition before_count (rule : OrderRule) : bool :=
  match rule with
  | OrderSize | VolatilityLowTier | RetailShortSize | MarginSufficiency => true
  | DailyTradeLimit | ExtendedHoursExperience => false
  end.

(** The informational line of the sector rule, which sits between the
    daily trade limit and the extended-hours rule. *)
Definition sector_info (order : TradeOrder) : list string :=
  if negb (sector order =? "DIVERSIFIED")%string
  then ["INFO: Checking sector concentration limits"] else [].

(** * The portfolio group with the two ratio checks skipped

    What the specification's division-by-zero policy asks for when the
    total value is zero: every check up to the high-risk exposure rule
    runs, the leverage and margin-equity checks count as passed. *)
Definition portfolio_checks_skipping_ratios (c_abs : double -> double)
           (positions : list PortfolioPosition) (trader : TraderProfile)
  : M bool :=
  r ← loss_size_and_exposure_checks c_abs positions trader;
  match r with
  | Some b => mret b
  | None => mret true
  end.

(** * Variations of an input *)

(** The order [order] with its volatility score replaced by [v]. *)
Definition with_volatility (order : TradeOrder) (v : double) : TradeOrder :=
  {| order_id := order_id order; symbol := symbol order;
     order_type := order_type order; quantity := quantity order;
     price := price order; time_in_force := time_in_force order;
     is_margin_trade := is_margin_trade order; sector := sector order;
     volatility_score := v |}.

(** The inputs of [validatePortfolioRisk] with the account balance and
    every current value multiplied by [k]. *)
Definition scale_position (k : double) (p : PortfolioPosition)
  : PortfolioPosition :=
  {| pos_symbol := pos_symbol p;
     current_value := (current_value p * k)%float;
     unrealized_pnl := unrealized_pnl p;
     sector_exposure := sector_exposure p;
     risk_category := risk_category p |}.

Definition scale_trader (k : double) (t : TraderProfile) : TraderProfile :=
  {| trader_id := trader_id t; trader_name := trader_name t;
     experience_years := experience_years t; risk_level := risk_level t;
     account_balance := (account_balance t * k)%float;
     available_margin := available_margin t; trader_type := trader_type t;
     is_accredited := is_accredited t; jurisdiction := jurisdiction t |}.

(** * Binary64 rounding, read on integers

    [SpecFloat] rounds a mantissa by shifting it right one bit at a time
    while it keeps a round bit and a sticky bit ([shr_1]), and then rounds
    to nearest, ties to even.  The three fields of its [shr_record] are
    one integer here, the mantissa followed by the two bits, so that a
    shift and the rounding are arithmetic on [Z]. *)

Abbreviation two52 := 4503599627370496.
Abbreviation two53 := 9007199254740992.

(** A shift record as one integer: mantissa, round bit, sticky bit. *)
Definition code (mrs : shr_record) : Z :=
  4 * shr_m mrs + (if shr_r mrs then 2 else 0) + (if shr_s mrs then 1 else 0).

(** [shr_1] on codes: halve, and keep a lost 1 in the sticky bit. *)
Definition ss1 (c : Z) : Z := c / 2 + (if c mod 4 =? 1 then 1 else 0).

(** [n] sticky shifts. *)
Definition ssn (n : positive) (c : Z) : Z := Pos.iter ss1 c n.

(** A shift by any [n]: to the right with a sticky bit, or to the left. *)
Definition sshift (n : Z) (c : Z) : Z :=
  match n with
  | Zpos p => ssn p c
  | Z0 => c
  | Zneg p => c * 2 ^ Zpos p
  end.

(** Round to nearest even, from a code to a mantissa. *)
Definition rne (c : Z) : Z := (c + 1 + (c / 4) mod 2) / 4.

(** The exponent of the double that holds a number of magnitude [2^e]
    ([fexp] at [prec = 53], [emax = 1024]). *)
Definition fexp64 (e : Z) : Z := Z.max (e - 53) (-1074).

(** What [binary_round_aux] returns for the rounded mantissa [q] at the
    exponent [f]. *)
Definition pack (s : bool) (q f : Z) : spec_float :=
  if q =? 0 then S754_zero s
  else if q =? two53 then
    if f + 1 <=? 971 then S754_finite s 4503599627370496 (f + 1)
    else S754_infinity s
  else if f <=? 971 then S754_finite s (Z.to_pos q) f
  else S754_infinity s.

(** The key of a non-negative double with mantissa [q] and exponent [f]:
    its rank among the non-negative doubles (the integer its bit pattern
    encodes). *)
Definition ukey (q f : Z) : Z := (f + 1074) * two52 + q.

(** The key of the infinity. *)
Definition KINF : Z := 2047 * 2 ^ 52.

(** The key of the rounding of [z * 2^e], for [z > 0], before overflow
    is taken into account. *)
Definition KV (z e : Z) : Z :=
  let f := fexp64 (Z.log2 z + 1 + e) in
  (f + 1074) * 2 ^ 52 + rne (sshift (f - e) (4 * z)).

Definition sgn (s : bool) (z : Z) : Z := if s then - z else z.

(** The signed key of a double: its position in the order of the doubles. *)
Definition skey (x : spec_float) : Z :=
  match x with
  | S754_zero _ => 0
  | S754_infinity s => sgn s KINF
  | S754_nan => 0
  | S754_finite s m e => sgn s (ukey (Zpos m) e)
  end.

(** The signed key of the double nearest to [z * 2^k]. *)
Definition rkey (k z : Z) : Z :=
  match z with
  | Z0 => 0
  | Zpos _ => Z.min KINF (KV z k)
  | Zneg p => - Z.min KINF (KV (Zpos p) k)
  end.

Definition is_nan (x : spec_float) : bool :=
  match x with S754_nan => true | _ => false end.

(** A finite number or a zero. *)
Definition is_finite (x : spec_float) : bool :=
  match x with
  | S754_zero _ | S754_finite _ _ _ => true
  | _ => false
  end.

(** The value of a finite binary64 number, in units of [2^-1074]. *)
Definition ival (x : spec_float) : Z :=
  match x with
  | S754_finite s m e => sgn s (Zpos m * 2 ^ (e + 1074))
  | _ => 0
  end.

(** One half, [0.5], as a binary64 number. *)
Definition SFhalf : spec_float := S754_finite false 4503599627370496 (-53).

(** ** Scaling by a power of two *)

(** [k] is the power of two [2^j]. *)
Definition is_pow2 (k : double) (j : Z) : Prop :=
  Prim2SF k = S754_finite false 4503599627370496 (j - 52).

(** Multiplication by [2^j] on a binary64 number, when it is exact: the
    exponent moves, the mantissa stays. *)
Definition sf_scale (j : Z) (x : spec_float) : spec_float :=
  match x with
  | S754_finite s m e => S754_finite s m (e + j)
  | _ => x
  end.

(** A zero, or a normal number whose product with [2^j] is finite and at
    least [2^-1021] in magnitude: the multiplication is exact, and so is
    the rounding of any sum that lands on such a number. *)
Definition scalable (j : Z) (x : spec_float) : bool :=
  match x with
  | S754_zero _ => true
  | S754_finite _ m e =>
      (two52 <=? Zpos m) && (-1074 <? e + j) && (e + j <=? 971)
  | _ => false
  end.

(** Every current value and every running total of the first loop of
    [validatePortfolioRisk] is scalable. *)
Fixpoint sums_scalable (j : Z) (acc : double)
         (positions : list PortfolioPosition) : bool :=
  match positions with
  | [] => true
  | p :: rest =>
      scalable j (Prim2SF (current_value p))
      && scalable j (Prim2SF (acc + current_value p)%float)
      && sums_scalable j (acc + current_value p)%float rest
  end.

(** * Inputs used by the examples *)

(** An order of 1,001,000. *)
Definition big_order : TradeOrder :=
  {| order_id := 1; symbol := "AAPL"; order_type := "BUY";
     quantity := 1001%float; price := 1000%float; time_in_force := "DAY";
     is_margin_trade := false; sector := "DIVERSIFIED";
     volatility_score := 0.3%float |}.

(** An order that trips the volatility, short-size, margin and
    extended-hours rules at once, for a low-tier retail trader. *)
Definition low_tier_trader : TraderProfile :=
  {| trader_id := 7; trader_name := "Low Tier"; experience_years := 1;
     risk_level := "LOW"; account_balance := 60000%float;
     available_margin := 0%float; trader_type := "RETAIL";
     is_accredited := false; jurisdiction := "US" |}.

Definition volatile_short_order : TradeOrder :=
  {| order_id := 2; symbol := "XYZ"; order_type := "SHORT";
     quantity := 2000%float; price := 100%float;
     time_in_force := "EXTENDED_HOURS"; is_margin_trade := true;
     sector := "BIOTECH"; volatility_score := 0.9%float |}.

(** A trader in debt: a negative balance, which the code accepts and the
    data model (balances are not negative) excludes. *)
Definition indebted_trader : TraderProfile :=
  {| trader_id := 9; trader_name := "In Debt"; experience_years := 10;
     risk_level := "MEDIUM"; account_balance := (-1)%float;
     available_margin := 0%float; trader_type := "RETAIL";
     is_accredited := true; jurisdiction := "US" |}.

(** Two positions whose values cancel: the total is exactly zero. *)
Definition hedged_positions : list PortfolioPosition :=
  [ {| pos_symbol := "LONG"; current_value := 5000%float;
       unrealized_pnl := (-100)%float; sector_exposure := 0.5%float;
       risk_category := "LOW_RISK" |};
    {| pos_symbol := "SHORT"; current_value := (-5000)%float;
       unrealized_pnl := 50%float; sector_exposure := 0.5%float;
       risk_category := "LOW_RISK" |} ].

(** A portfolio at exactly ten times the balance. *)
Definition leveraged_trader : TraderProfile :=
  {| trader_id := 11; trader_name := "At The Limit"; experience_years := 10;
     risk_level := "MEDIUM"; account_balance := 70000%float;
     available_margin := 0%float; trader_type := "INSTITUTIONAL";
     is_accredited := true; jurisdiction := "US" |}.

Definition leveraged_positions : list PortfolioPosition :=
  [ {| pos_symbol := "IDX"; current_value := 700000%float;
       unrealized_pnl := 0%float; sector_exposure := 1%float;
       risk_category := "LOW_RISK" |} ].


(** * The class as its clients use it

    A client holds one [TradingRiskManager] and calls its public methods
    in any order.  A [Call] is one such call with its arguments. *)

Inductive Call :=
| CallEligibility (trader : TraderProfile)
| CallOrder (order : TradeOrder) (trader : TraderProfile)
| CallPortfolio (positions : list PortfolioPosition) (trader : TraderProfile)
| CallMarket (current_vix : double) (market_status : string)
| CallLoss (trader_id : Z) (trade_loss : double)
| CallSuitability (trader : TraderProfile) (product_type : string)
| CallExecution (order : TradeOrder) (venue : string).

Definition run_call (c_abs : double -> double) (c : Call) : M bool :=
  match c with
  | CallEligibility trader => validateTraderEligibility trader
  | CallOrder order trader => validateTradeOrder order trader
  | CallPortfolio positions trader => validatePortfolioRisk c_abs positions trader
  | CallMarket current_vix market_status =>
      checkMarketConditions current_vix market_status
  | CallLoss trader_id trade_loss => checkDailyLossLimits trader_id trade_loss
  | CallSuitability trader product_type =>
      assessClientSuitability trader product_type
  | CallExecution order venue => validateOrderExecution order venue
  end.

(** The manager after a sequence of calls. *)
Definition state_after_calls (c_abs : double -> double) (calls : list Call)
           (s : TradingRiskManager) : TradingRiskManager :=
  fold_left (fun s c => state_after (run_call c_abs c s)) calls s.

(** The manager after a sequence of losses recorded for one trader. *)
Definition record_losses (id : Z) (losses : list double)
           (s : TradingRiskManager) : TradingRiskManager :=
  fold_left (fun s loss => state_after (checkDailyLossLimits id loss s))
            losses s.

(** The product types that [assessClientSuitability] has a rule for. *)
Definition restricted_products : list string :=
  ["DERIVATIVES"; "STRUCTURED_PRODUCTS"; "HFT_ALGORITHMS";
   "INTERNATIONAL_EQUITIES"; "CRYPTOCURRENCY"].

Definition POSITION_CAP_LINE : string :=
  "VIOLATION: Position size exceeds maximum allowed".
Definition DARK_POOL_LINE : string :=
  "WARNING: Large orders should use dark pools".
Definition RETAIL_VENUE_LINE : string :=
  "REJECTED: Order too large for retail venue".
Definition HALT_LINE : string :=
  "TRADING HALT: Market volatility too high (VIX > 40)".

(** A proprietary trader with six years of experience. *)
Definition prop_trader : TraderProfile :=
  {| trader_id := 21; trader_name := "Prop Desk"; experience_years := 6;
     risk_level := "HIGH"; account_balance := 900000%float;
     available_margin := 500000%float; trader_type := "PROPRIETARY";
     is_accredited := false; jurisdiction := "UK" |}.

(** A portfolio whose second position is above the 10M cap. *)
Definition oversized_positions : list PortfolioPosition :=
  [ {| pos_symbol := "SMALL"; current_value := 1000%float;
       unrealized_pnl := 0%float; sector_exposure := 0.1%float;
       risk_category := "LOW_RISK" |};
    {| pos_symbol := "HUGE"; current_value := 10000001%float;
       unrealized_pnl := 0%float; sector_exposure := 0.9%float;
       risk_category := "LOW_RISK" |} ].

(** A computation that never changes the manager. *)
Definition keeps_state {A} (m : M A) : Prop :=
  forall s, state_after (m s) = s.

Definition CONCENTRATION_LINE : string :=
  "WARNING: Single position exceeds 20% of portfolio".
Definition LOSS_WARNING_LINE : string :=
  "WARNING: Portfolio losses exceed 20% of account balance".

(** The lines that [validatePortfolioRisk] can print before the
    high-risk exposure rule. *)
Definition early_portfolio_lines : list string :=
  [LOSS_WARNING_LINE; CONCENTRATION_LINE; POSITION_CAP_LINE].

Definition HIGH_RISK_LINE : string :=
  "VIOLATION: High-risk exposure exceeds threshold".
Definition LEVERAGE_LINE : string :=
  "VIOLATION: Leverage ratio exceeds maximum allowed".
Definition MARGIN_CALL_LINE : string :=
  "MARGIN CALL: Account below margin maintenance requirement".
Definition FORCED_LIQUIDATION_LINE : string :=
  "FORCED LIQUIDATION: Account below liquidation threshold".

(** A net short portfolio without any high-risk position. *)
Definition net_short_positions : list PortfolioPosition :=
  [ {| pos_symbol := "SHORT"; current_value := (-5000)%float;
       unrealized_pnl := 0%float; sector_exposure := 1%float;
       risk_category := "LOW_RISK" |} ].

(** An overdrawn account that still holds a small position. *)
Definition overdrawn_trader : TraderProfile :=
  {| trader_id := 31; trader_name := "Over Drawn"; experience_years := 10;
     risk_level := "MEDIUM"; account_balance := (-100000)%float;
     available_margin := 0%float; trader_type := "INSTITUTIONAL";
     is_accredited := true; jurisdiction := "US" |}.

Definition small_positions : list PortfolioPosition :=
  [ {| pos_symbol := "A"; current_value := 1000%float;
       unrealized_pnl := 0%float; sector_exposure := 0.2%float;
       risk_category := "LOW_RISK" |} ].

(** * Running a method *)

Ltac unfold_M :=
  unfold mbind, M_bind, mret, M_ret, cout, when, returned, state_after,
    printed in *.

(** The scenario of [main]: both groups approve the sample order. *)
Example main_scenario :
  returned (validateTraderEligibility sample_trader fresh) = true
  /\ returned (validateTradeOrder sample_order sample_trader fresh) = true.
Proof. split; vm_compute; reflexivity. Qed.

Example main_run :
  printed (main fresh)
  = ["INFO: Checking sector concentration limits"; "ORDER APPROVED"]
  /\ returned (main fresh) = 0.
Proof. split; vm_compute; reflexivity. Qed.

(** The retail venue takes no order above 100,000 units. *)
Example retail_venue_scenario :
  validateOrderExecution
    {| order_id := 1002; symbol := "AAPL"; order_type := "BUY";
       quantity := 150001%float; price := 1%float; time_in_force := "DAY";
       is_margin_trade := false; sector := "TECHNOLOGY";
       volatility_score := 0.3%float |} "RETAIL_VENUE" fresh
  = (false, fresh, ["REJECTED: Order too large for retail venue"]).
Proof. vm_compute. reflexivity. Qed.

(** * Binary64 arithmetic

    The operations of [double] are specified by [SpecFloat]; the lemmas
    below read its rounding as a function on integers (sticky shift, round
    to nearest even) and derive the facts the rules depend on: the order of
    the doubles, monotone operations, the sign of a zero sum and exact
    scaling by a power of two. *)

(** ** Rounding: sticky shift, nearest even, keys *)

Ltac divmod := Z.div_mod_to_equations; lia.

Lemma iter_pos_eq {A} (f : A -> A) (n : positive) (x : A) :
  SpecFloat.iter_pos f n x = Pos.iter f x n.
Proof.
  revert x. induction n as [n IH|n IH|]; intros x; cbn.
  - rewrite !IH, <- !Pos.iter_swap. reflexivity.
  - rewrite !IH. reflexivity.
  - reflexivity.
Qed.

Lemma ss1_mono (c c' : Z) : c <= c' -> ss1 c <= ss1 c'.
Proof.
  unfold ss1. intros H.
  destruct (Z.eqb_spec (c mod 4) 1), (Z.eqb_spec (c' mod 4) 1); divmod.
Qed.

Lemma ss1_double (c : Z) : ss1 (2 * c) = c.
Proof.
  unfold ss1. destruct (Z.eqb_spec ((2 * c) mod 4) 1); divmod.
Qed.

Lemma ss1_nonneg (c : Z) : 0 <= c -> 0 <= ss1 c.
Proof.
  unfold ss1. intros H. destruct (Z.eqb_spec (c mod 4) 1); divmod.
Qed.

Lemma ss1_ones (j : Z) : 2 <= j -> ss1 (2 ^ j - 1) = 2 ^ (j - 1) - 1.
Proof.
  intros Hj. replace j with (j - 2 + 2) at 1 by lia.
  replace (j - 1) with (j - 2 + 1) by lia.
  rewrite !Z.pow_add_r by lia. change (2 ^ 2) with 4. change (2 ^ 1) with 2.
  assert (0 < 2 ^ (j - 2)) by (apply Z.pow_pos_nonneg; lia).
  unfold ss1. destruct (Z.eqb_spec ((2 ^ (j - 2) * 4 - 1) mod 4) 1); divmod.
Qed.

Lemma ssn_succ (n : positive) (c : Z) : ssn (Pos.succ n) c = ss1 (ssn n c).
Proof. apply Pos.iter_succ. Qed.

Lemma ssn_mono (n : positive) (c c' : Z) : c <= c' -> ssn n c <= ssn n c'.
Proof.
  intros H. induction n as [|n IH] using Pos.peano_ind.
  - apply ss1_mono, H.
  - rewrite !ssn_succ. apply ss1_mono, IH.
Qed.

Lemma ssn_nonneg (n : positive) (c : Z) : 0 <= c -> 0 <= ssn n c.
Proof.
  intros H. induction n as [|n IH] using Pos.peano_ind.
  - apply ss1_nonneg, H.
  - rewrite ssn_succ. apply ss1_nonneg, IH.
Qed.

Lemma ssn_exact (n : positive) (c : Z) : ssn n (c * 2 ^ Zpos n) = c.
Proof.
  revert c. induction n as [|n IH] using Pos.peano_ind; intros c.
  - change (2 ^ 1) with 2. rewrite Z.mul_comm. apply ss1_double.
  - rewrite ssn_succ, Pos2Z.inj_succ, Z.pow_succ_r by lia.
    replace (c * (2 * 2 ^ Z.pos n)) with (2 * c * 2 ^ Z.pos n) by ring.
    rewrite IH. apply ss1_double.
Qed.

Lemma ssn_succ_r (n : positive) (c : Z) : ssn (Pos.succ n) c = ssn n (ss1 c).
Proof. apply Pos.iter_succ_r. Qed.

Lemma ssn_ones (n : positive) (j : Z) :
  2 <= j -> ssn n (2 ^ (Zpos n + j) - 1) = 2 ^ j - 1.
Proof.
  intros Hj. induction n as [|n IH] using Pos.peano_ind.
  - unfold ssn. cbn [Pos.iter]. rewrite ss1_ones by lia. f_equal. f_equal. lia.
  - rewrite ssn_succ_r, Pos2Z.inj_succ, ss1_ones by lia.
    replace (Z.succ (Z.pos n) + j - 1) with (Z.pos n + j) by lia. exact IH.
Qed.

Lemma ssn_add (a b : positive) (c : Z) : ssn (a + b) c = ssn a (ssn b c).
Proof. apply Pos.iter_add. Qed.

Lemma sshift_mono (n c c' : Z) : c <= c' -> sshift n c <= sshift n c'.
Proof.
  intros H. destruct n as [|p|p]; cbn [sshift].
  - exact H.
  - apply ssn_mono, H.
  - apply Z.mul_le_mono_nonneg_r; [apply Z.pow_nonneg; lia | exact H].
Qed.

Lemma sshift_nonneg (n c : Z) : 0 <= c -> 0 <= sshift n c.
Proof.
  intros H. destruct n as [|p|p]; cbn [sshift].
  - exact H.
  - apply ssn_nonneg, H.
  - apply Z.mul_nonneg_nonneg; [exact H | apply Z.pow_nonneg; lia].
Qed.

(** Shifting zeros in and out again changes nothing. *)
Lemma sshift_rebase (n j c : Z) :
  0 <= j -> sshift (n + j) (c * 2 ^ j) = sshift n c.
Proof.
  intros Hj. destruct (Z.eq_dec j 0) as [->|Hj0].
  { rewrite Z.add_0_r, Z.pow_0_r, Z.mul_1_r. reflexivity. }
  destruct j as [|j|j]; try lia. clear Hj Hj0.
  destruct n as [|p|p].
  - cbn [Z.add sshift]. apply ssn_exact.
  - change (Z.pos p + Z.pos j) with (Z.pos (p + j)). cbn [sshift].
    rewrite ssn_add, ssn_exact. reflexivity.
  - cbn [sshift]. destruct (Z.neg p + Z.pos j) as [|q|q] eqn:Hq; cbn [sshift].
    + assert (j = p) by lia. subst. reflexivity.
    + assert (Hjq : Z.pos j = Z.pos p + Z.pos q) by lia.
      rewrite Hjq, Z.pow_add_r, Z.mul_assoc by lia. apply ssn_exact.
    + assert (Hjq : Z.pos p = Z.pos j + Z.pos q) by lia.
      rewrite Hjq, Z.pow_add_r by lia. ring.
Qed.

Lemma sshift_pow2 (n a : Z) :
  0 <= a -> n <= a -> sshift n (2 ^ a) = 2 ^ (a - n).
Proof.
  intros Ha H. destruct n as [|p|p]; cbn [sshift].
  - f_equal. lia.
  - replace a with (a - Z.pos p + Z.pos p) at 1 by lia.
    rewrite Z.pow_add_r by lia. apply ssn_exact.
  - rewrite <- Z.pow_add_r by lia. reflexivity.
Qed.

Lemma sshift_ones (n j : Z) :
  0 <= n -> 2 <= j -> sshift n (2 ^ (n + j) - 1) = 2 ^ j - 1.
Proof.
  intros Hn Hj. destruct n as [|p|p]; try lia; cbn [sshift].
  - reflexivity.
  - apply ssn_ones, Hj.
Qed.

Lemma rne_mono (c c' : Z) : c <= c' -> rne c <= rne c'.
Proof. unfold rne. intros H. divmod. Qed.

Lemma rne_exact (q : Z) : rne (4 * q) = q.
Proof. unfold rne. divmod. Qed.

Lemma rne_nonneg (c : Z) : 0 <= c -> 0 <= rne c.
Proof. unfold rne. intros H. divmod. Qed.

Lemma rne_code (mrs : shr_record) :
  round_nearest_even (shr_m mrs) (loc_of_shr_record mrs) = rne (code mrs).
Proof.
  destruct mrs as [m [|] [|]]; unfold code, rne; cbn;
    try destruct (Z.even m) eqn:He;
    try (apply Z.even_spec in He; destruct He as [k ->]);
    try (apply (f_equal negb) in He; rewrite Z.negb_even in He;
         apply Z.odd_spec in He; destruct He as [k ->]);
    divmod.
Qed.

Lemma shr_1_code (mrs : shr_record) :
  0 <= shr_m mrs ->
  code (shr_1 mrs) = ss1 (code mrs) /\ 0 <= shr_m (shr_1 mrs).
Proof.
  destruct mrs as [m r s]. cbn [shr_m]. intros Hm.
  destruct m as [|p|p]; [|destruct p as [p|p|]|lia];
    destruct r, s; unfold code, ss1; cbn [shr_1 shr_m shr_r shr_s orb];
    (split; [|lia]);
    match goal with
    | |- context [?a mod 4 =? 1] => destruct (Z.eqb_spec (a mod 4) 1)
    end; divmod.
Qed.

Lemma iter_shr_1_code (n : positive) (mrs : shr_record) :
  0 <= shr_m mrs ->
  code (SpecFloat.iter_pos shr_1 n mrs) = ssn n (code mrs)
  /\ 0 <= shr_m (SpecFloat.iter_pos shr_1 n mrs).
Proof.
  rewrite iter_pos_eq. unfold ssn. intros Hm.
  induction n as [|n IH] using Pos.peano_ind.
  - apply shr_1_code, Hm.
  - rewrite !Pos.iter_succ. destruct IH as [IH1 IH2].
    destruct (shr_1_code _ IH2) as [H1 H2]. rewrite H1, IH1. auto.
Qed.

Lemma digits2_size (p : positive) : digits2_pos p = Pos.size p.
Proof. induction p as [p IH|p IH|]; cbn; rewrite ?IH; reflexivity. Qed.

Lemma Zdigits2_log2 (p : positive) :
  Zdigits2 (Zpos p) = Z.log2 (Zpos p) + 1.
Proof.
  cbn [Zdigits2]. rewrite digits2_size.
  destruct p as [p|p|]; cbn [Z.log2 Pos.size]; lia.
Qed.

Lemma fexp_fexp64 (x : Z) : fexp prec emax x = fexp64 x.
Proof. reflexivity. Qed.

Lemma log2_bounds (z : Z) : 0 < z -> 2 ^ Z.log2 z <= z < 2 ^ (Z.log2 z + 1).
Proof. intros H. apply Z.log2_spec in H. rewrite <- Z.add_1_r in H. exact H. Qed.

(** The rounded mantissa never exceeds [2^53]. *)
Lemma rounded_upper (z e : Z) :
  0 < z ->
  rne (sshift (fexp64 (Z.log2 z + 1 + e) - e) (4 * z)) <= two53.
Proof.
  intros Hz. set (d := Z.log2 z + 1). set (n := fexp64 (d + e) - e).
  assert (Hd : 0 < d) by (pose proof (Z.log2_nonneg z); lia).
  assert (Hn : d - 53 <= n) by (unfold n, fexp64; lia).
  assert (Hzd : z < 2 ^ d) by (apply log2_bounds, Hz).
  change two53 with (rne (2 ^ 55 - 1)). apply rne_mono.
  destruct (Z.le_gt_cases 0 n) as [Hn0|Hn0].
  - rewrite <- (sshift_ones n 55) by lia. apply sshift_mono.
    assert (2 ^ d * 2 ^ 2 <= 2 ^ (n + 55)).
    { rewrite <- Z.pow_add_r by lia. apply Z.pow_le_mono_r; lia. }
    change (2 ^ 2) with 4 in *. lia.
  - destruct n as [|p|p]; try lia. cbn [sshift].
    assert (2 ^ d * 2 ^ Z.pos p <= 2 ^ 53).
    { rewrite <- Z.pow_add_r by lia. apply Z.pow_le_mono_r; lia. }
    assert (0 < 2 ^ Z.pos p) by (apply Z.pow_pos_nonneg; lia).
    change (2 ^ 53) with two53 in *. change (2 ^ 55) with (4 * two53). nia.
Qed.

(** In the normal range the rounded mantissa is at least [2^52]. *)
Lemma rounded_lower (z e : Z) :
  0 < z ->
  -1074 < fexp64 (Z.log2 z + 1 + e) ->
  two52 <= rne (sshift (fexp64 (Z.log2 z + 1 + e) - e) (4 * z)).
Proof.
  intros Hz Hf. set (d := Z.log2 z + 1) in *.
  assert (Hfe : fexp64 (d + e) = d + e - 53) by (unfold fexp64 in *; lia).
  rewrite Hfe. replace (d + e - 53 - e) with (d - 53) by lia.
  assert (Hd : 0 < d) by (pose proof (Z.log2_nonneg z); lia).
  assert (Hzd : 2 ^ (d - 1) <= z).
  { unfold d. replace (Z.log2 z + 1 - 1) with (Z.log2 z) by lia.
    apply log2_bounds, Hz. }
  change two52 with (rne (2 ^ 54)). apply rne_mono.
  replace (2 ^ 54) with (sshift (d - 53) (2 ^ (d + 1)))
    by (rewrite sshift_pow2 by lia; f_equal; lia).
  apply sshift_mono.
  replace (d + 1) with (d - 1 + 2) by lia. rewrite Z.pow_add_r by lia.
  change (2 ^ 2) with 4. lia.
Qed.

(** [binary_round_aux] on an exact input whose exponent is not above the
    target exponent: shift with sticky bits, round to nearest even, pack. *)
Lemma binary_round_aux_spec (s : bool) (z e : Z) :
  0 < z ->
  e <= fexp64 (Z.log2 z + 1 + e) ->
  binary_round_aux prec emax s z e loc_Exact
  = pack s (rne (sshift (fexp64 (Z.log2 z + 1 + e) - e) (4 * z)))
         (fexp64 (Z.log2 z + 1 + e)).
Proof.
  intros Hz Hn.
  pose proof (rounded_upper z e Hz) as Hup.
  pose proof (rounded_lower z e Hz) as Hlow.
  set (f := fexp64 (Z.log2 z + 1 + e)) in *.
  set (q := rne (sshift (f - e) (4 * z))) in *.
  assert (Hf : -1074 <= f) by (unfold f, fexp64; lia).
  unfold binary_round_aux.
  (* first shift *)
  assert (H1 : exists mrs,
             shr_fexp prec emax z e loc_Exact = (mrs, f)
             /\ code mrs = sshift (f - e) (4 * z) /\ 0 <= shr_m mrs).
  { unfold shr_fexp. destruct z as [|p|p]; try lia.
    rewrite Zdigits2_log2, fexp_fexp64. fold f.
    unfold shr_record_of_loc, shr.
    destruct (f - e) as [|n|n] eqn:Hfe; try lia.
    - eexists. split; [f_equal; lia|]. split; [|cbn; lia].
      unfold code. cbn [shr_m shr_r shr_s sshift]. lia.
    - eexists. split; [f_equal; lia|].
      destruct (iter_shr_1_code n (Build_shr_record (Z.pos p) false false))
        as [Hc Hm]; [cbn; lia|].
      split; [|exact Hm]. rewrite Hc. reflexivity. }
  destruct H1 as (mrs & -> & Hcode & Hm).
  rewrite rne_code, Hcode. fold q.
  assert (Hq0 : 0 <= q).
  { unfold q. apply rne_nonneg. rewrite <- Hcode. unfold code.
    destruct (shr_r mrs), (shr_s mrs); lia. }
  (* second shift *)
  unfold pack, shr_fexp, shr_record_of_loc.
  destruct (Z.eqb_spec q 0) as [Hq|Hq].
  - rewrite Hq. cbn [Zdigits2]. rewrite fexp_fexp64. unfold shr.
    assert (Hle : fexp64 (0 + f) - f <= 0) by (unfold fexp64; lia).
    destruct (fexp64 (0 + f) - f); try lia; reflexivity.
  - destruct q as [|pq|pq] eqn:Hqe; try lia.
    rewrite Zdigits2_log2, fexp_fexp64.
    destruct (Z.eqb_spec (Z.pos pq) two53) as [H53|H53].
    + injection H53 as ->.
      change (fexp64 (Z.log2 two53 + 1 + f)) with (fexp64 (54 + f)).
      replace (fexp64 (54 + f) - f) with 1 by (unfold fexp64; lia).
      unfold shr. cbn [SpecFloat.iter_pos shr_1 shr_m].
      change (emax - prec) with 971. replace (f + 1) with (f + 1)%Z by reflexivity.
      reflexivity.
    + assert (Hlog : Z.log2 (Z.pos pq) < 53).
      { apply Z.log2_lt_pow2; [lia|]. change (2 ^ 53) with two53. lia. }
      assert (Hle : fexp64 (Z.log2 (Z.pos pq) + 1 + f) - f <= 0)
        by (unfold fexp64; lia).
      unfold shr.
      destruct (fexp64 (Z.log2 (Z.pos pq) + 1 + f) - f); try lia;
        cbn [shr_m]; change (emax - prec) with 971; reflexivity.
Qed.

Lemma iter_xO_pow2 (p d : positive) :
  Zpos (Pos.iter xO p d) = Zpos p * 2 ^ Zpos d.
Proof.
  induction d as [|d IH] using Pos.peano_ind.
  - cbn [Pos.iter]. change (2 ^ 1) with 2. lia.
  - rewrite Pos.iter_succ, Pos2Z.inj_xO, IH, Pos2Z.inj_succ, Z.pow_succ_r by lia.
    ring.
Qed.

(** [binary_round]: the same, for any exponent (a mantissa below the
    target exponent is shifted left first). *)
Lemma binary_round_spec (s : bool) (p : positive) (e : Z) :
  binary_round prec emax s p e
  = pack s (rne (sshift (fexp64 (Z.log2 (Zpos p) + 1 + e) - e) (4 * Zpos p)))
         (fexp64 (Z.log2 (Zpos p) + 1 + e)).
Proof.
  unfold binary_round. rewrite fexp_fexp64.
  change (Z.pos (digits2_pos p)) with (Zdigits2 (Zpos p)).
  rewrite Zdigits2_log2.
  set (f := fexp64 (Z.log2 (Zpos p) + 1 + e)).
  unfold shl_align. destruct (f - e) as [|n|d] eqn:Hfe.
  - rewrite binary_round_aux_spec by (fold f; lia). fold f. rewrite Hfe.
    reflexivity.
  - rewrite binary_round_aux_spec by (fold f; lia). fold f. rewrite Hfe.
    reflexivity.
  - assert (Hlog : Z.log2 (Z.pos (Pos.iter xO p d)) + 1 + f
                   = Z.log2 (Zpos p) + 1 + e).
    { rewrite iter_xO_pow2, Z.log2_mul_pow2 by lia. lia. }
    rewrite binary_round_aux_spec by (rewrite ?Hlog; fold f; lia).
    rewrite Hlog. fold f. rewrite Z.sub_diag. cbn [sshift].
    rewrite iter_xO_pow2. f_equal. f_equal. ring.
Qed.

Lemma skey_pack (s : bool) (q f : Z) :
  0 <= q <= two53 -> -1074 <= f -> (-1074 < f -> two52 <= q) ->
  skey (pack s q f) = sgn s (Z.min KINF (ukey q f))
  /\ is_nan (pack s q f) = false.
Proof.
  intros Hq Hf Hlow. unfold pack, ukey, KINF.
  change (2 ^ 52) with two52.
  destruct (Z.eqb_spec q 0) as [->|Hq0].
  - cbn [skey is_nan]. split; [|reflexivity].
    assert (f = -1074) by lia. subst f. destruct s; reflexivity.
  - destruct (Z.eqb_spec q two53) as [->|Hq53].
    + destruct (Z.leb_spec (f + 1) 971); cbn [skey is_nan];
        (split; [|reflexivity]); unfold ukey, KINF; f_equal; lia.
    + destruct (Z.leb_spec f 971); cbn [skey is_nan];
        (split; [|reflexivity]); unfold ukey, KINF; f_equal;
        rewrite ?Z2Pos.id by lia; lia.
Qed.

Lemma KV_ukey (z e : Z) :
  KV z e = ukey (rne (sshift (fexp64 (Z.log2 z + 1 + e) - e) (4 * z)))
                (fexp64 (Z.log2 z + 1 + e)).
Proof. unfold KV, ukey. change (2 ^ 52) with two52. ring. Qed.

Lemma rounded_nonneg (z e : Z) :
  0 < z -> 0 <= rne (sshift (fexp64 (Z.log2 z + 1 + e) - e) (4 * z)).
Proof. intros Hz. apply rne_nonneg, sshift_nonneg. lia. Qed.

Lemma binary_round_key (s : bool) (p : positive) (e : Z) :
  skey (binary_round prec emax s p e) = sgn s (Z.min KINF (KV (Zpos p) e))
  /\ is_nan (binary_round prec emax s p e) = false.
Proof.
  rewrite binary_round_spec, KV_ukey. apply skey_pack.
  - split; [apply rounded_nonneg | apply rounded_upper]; lia.
  - unfold fexp64. lia.
  - apply rounded_lower. lia.
Qed.

Lemma binary_round_aux_key (s : bool) (z e : Z) :
  0 < z -> e <= fexp64 (Z.log2 z + 1 + e) ->
  skey (binary_round_aux prec emax s z e loc_Exact)
  = sgn s (Z.min KINF (KV z e))
  /\ is_nan (binary_round_aux prec emax s z e loc_Exact) = false.
Proof.
  intros Hz He. rewrite binary_round_aux_spec, KV_ukey by assumption.
  apply skey_pack.
  - split; [apply rounded_nonneg | apply rounded_upper]; lia.
  - unfold fexp64. lia.
  - apply rounded_lower. lia.
Qed.

Lemma KV_nonneg (z e : Z) : 0 < z -> 0 <= KV z e.
Proof.
  intros Hz. unfold KV. pose proof (rounded_nonneg z e Hz).
  assert (-1074 <= fexp64 (Z.log2 z + 1 + e)) by (unfold fexp64; lia).
  cbv zeta. nia.
Qed.

(** The key depends on the value [z * 2^e] only. *)
Lemma KV_rebase (z e j : Z) :
  0 < z -> 0 <= j -> KV (z * 2 ^ j) (e - j) = KV z e.
Proof.
  intros Hz Hj. unfold KV.
  rewrite Z.log2_mul_pow2 by lia.
  replace (j + Z.log2 z + 1 + (e - j)) with (Z.log2 z + 1 + e) by lia.
  cbv zeta. f_equal. f_equal.
  replace (fexp64 (Z.log2 z + 1 + e) - (e - j))
    with (fexp64 (Z.log2 z + 1 + e) - e + j) by lia.
  rewrite Z.mul_assoc. apply sshift_rebase, Hj.
Qed.

(** At one exponent, the key is monotone in the mantissa. *)
Lemma KV_mono_same (z1 z2 e : Z) :
  0 < z1 -> z1 <= z2 -> KV z1 e <= KV z2 e.
Proof.
  intros H1 H12.
  assert (Hlog : Z.log2 z1 <= Z.log2 z2) by (apply Z.log2_le_mono; lia).
  assert (Hf : fexp64 (Z.log2 z1 + 1 + e) <= fexp64 (Z.log2 z2 + 1 + e))
    by (unfold fexp64; lia).
  destruct (Z.eq_dec (fexp64 (Z.log2 z1 + 1 + e)) (fexp64 (Z.log2 z2 + 1 + e)))
    as [Heq|Hne].
  - unfold KV. cbv zeta. rewrite Heq.
    apply Z.add_le_mono_l, rne_mono, sshift_mono. lia.
  - pose proof (rounded_upper z1 e H1) as Hup.
    assert (H2 : 0 < z2) by lia.
    pose proof (rounded_lower z2 e H2) as Hlow.
    assert (Hmin : -1074 <= fexp64 (Z.log2 z1 + 1 + e)) by (unfold fexp64; lia).
    unfold KV. cbv zeta. change (2 ^ 52) with two52.
    set (f1 := fexp64 (Z.log2 z1 + 1 + e)) in *.
    set (f2 := fexp64 (Z.log2 z2 + 1 + e)) in *.
    specialize (Hlow ltac:(lia)). lia.
Qed.

(** The key is monotone in the value. *)
Lemma KV_mono (z1 e1 z2 e2 k : Z) :
  0 < z1 -> 0 < z2 -> k <= e1 -> k <= e2 ->
  z1 * 2 ^ (e1 - k) <= z2 * 2 ^ (e2 - k) ->
  KV z1 e1 <= KV z2 e2.
Proof.
  intros H1 H2 Hk1 Hk2 Hle.
  rewrite <- (KV_rebase z1 e1 (e1 - k)), <- (KV_rebase z2 e2 (e2 - k)) by lia.
  replace (e1 - (e1 - k)) with k by lia. replace (e2 - (e2 - k)) with k by lia.
  apply KV_mono_same; [|exact Hle].
  apply Z.mul_pos_pos; [lia | apply Z.pow_pos_nonneg; lia].
Qed.

Lemma KV_pos (z e : Z) : 0 < z -> -1074 <= e -> 0 < KV z e.
Proof.
  intros Hz He. unfold KV. cbv zeta. change (2 ^ 52) with two52.
  pose proof (rounded_lower z e Hz) as Hlow.
  set (f := fexp64 (Z.log2 z + 1 + e)) in *.
  assert (Hf : -1074 <= f) by (unfold f, fexp64; lia).
  destruct (Z.eq_dec f (-1074)) as [Hf0|Hf0].
  - assert (Hq : z <= rne (sshift (f - e) (4 * z))).
    { destruct (f - e) as [|n|n] eqn:Hn; try lia; cbn [sshift].
      - rewrite rne_exact. lia.
      - replace (4 * z * 2 ^ Z.pos n) with (4 * (z * 2 ^ Z.pos n)) by ring.
        rewrite rne_exact.
        assert (0 < 2 ^ Z.pos n) by (apply Z.pow_pos_nonneg; lia). nia. }
    lia.
  - specialize (Hlow ltac:(lia)). nia.
Qed.

Lemma rkey_mono (k z z' : Z) : z <= z' -> rkey k z <= rkey k z'.
Proof.
  intros H.
  assert (Hn : forall p, 0 <= Z.min KINF (KV (Zpos p) k)).
  { intros p. pose proof (KV_nonneg (Zpos p) k ltac:(lia)).
    unfold KINF. change (2 ^ 52) with two52. lia. }
  destruct z as [|p|p], z' as [|p'|p']; try lia; cbn [rkey];
    try (pose proof (Hn p)); try (pose proof (Hn p')); try lia.
  - apply Z.min_le_compat_l, KV_mono_same; lia.
  - apply Z.opp_le_mono. rewrite !Z.opp_involutive.
    apply Z.min_le_compat_l, KV_mono_same; lia.
Qed.

(** *** Valid binary64 numbers and their order *)

Lemma bounded_inv (m : positive) (e : Z) :
  bounded prec emax m e = true ->
  -1074 <= e <= 971
  /\ Zpos m < two53
  /\ (-1074 < e -> two52 <= Zpos m)
  /\ fexp64 (Z.log2 (Zpos m) + 1 + e) = e.
Proof.
  unfold bounded, canonical_mantissa. rewrite fexp_fexp64.
  change (Z.pos (digits2_pos m)) with (Zdigits2 (Zpos m)).
  rewrite Zdigits2_log2. intros H. apply andb_true_iff in H as [Hc Hb].
  apply Z.eqb_eq in Hc. apply Z.leb_le in Hb. change (emax - prec) with 971 in Hb.
  pose proof (log2_bounds (Zpos m) ltac:(lia)) as [Hlo Hhi].
  pose proof (Z.log2_nonneg (Zpos m)) as Hl0.
  assert (Hd : Z.log2 (Zpos m) <= 52 /\ (-1074 < e -> Z.log2 (Zpos m) = 52))
    by (unfold fexp64 in Hc; lia).
  destruct Hd as [Hd1 Hd2].
  assert (Hm : Zpos m < two53).
  { assert (2 ^ (Z.log2 (Zpos m) + 1) <= 2 ^ 53)
      by (apply Z.pow_le_mono_r; lia).
    change (2 ^ 53) with two53 in H. lia. }
  split; [|split; [|split]].
  - unfold fexp64 in Hc. lia.
  - exact Hm.
  - intros He. rewrite (Hd2 He) in Hlo. change (2 ^ 52) with two52 in Hlo. lia.
  - exact Hc.
Qed.

Lemma skey_finite_range (s : bool) (m : positive) (e : Z) :
  bounded prec emax m e = true ->
  0 < ukey (Zpos m) e < KINF.
Proof.
  intros H. apply bounded_inv in H as (He & Hm & Hlow & _).
  unfold ukey, KINF. change (2 ^ 52) with two52. lia.
Qed.

Lemma ukey_le_iff (m1 m2 : positive) (e1 e2 : Z) :
  bounded prec emax m1 e1 = true -> bounded prec emax m2 e2 = true ->
  (ukey (Zpos m1) e1 <= ukey (Zpos m2) e2
   <-> e1 < e2 \/ (e1 = e2 /\ (m1 <= m2)%positive)).
Proof.
  intros H1 H2.
  apply bounded_inv in H1 as (He1 & Hm1 & Hlow1 & _).
  apply bounded_inv in H2 as (He2 & Hm2 & Hlow2 & _).
  unfold ukey. lia.
Qed.

Lemma KINF_pos : 0 < KINF.
Proof. reflexivity. Qed.

(** On valid numbers that are not NaN, [<=] is the order of the keys. *)
Lemma SFleb_skey (x y : spec_float) :
  valid_binary x = true -> valid_binary y = true ->
  is_nan x = false -> is_nan y = false ->
  (SFleb x y = true <-> skey x <= skey y).
Proof.
  intros Vx Vy Nx Ny. pose proof KINF_pos as HK.
  destruct x as [sx|sx| |sx mx ex], y as [sy|sy| |sy my ey];
    try discriminate; cbn [valid_binary] in Vx, Vy;
    try (pose proof (skey_finite_range sx mx ex Vx) as Rx);
    try (pose proof (skey_finite_range sy my ey Vy) as Ry);
    unfold SFleb, SFcompare, skey, sgn.
  1-8: repeat match goal with b : bool |- _ => destruct b end;
    split; intros; try reflexivity; try discriminate; lia.
  - pose proof (ukey_le_iff mx my ex ey Vx Vy) as Rxy.
    pose proof (ukey_le_iff my mx ey ex Vy Vx) as Ryx.
    change (Pos.compare_cont Eq mx my) with (mx ?= my)%positive.
    destruct sx, sy.
    + destruct (Z.compare_spec ex ey) as [He|He|He];
        [destruct (Pos.compare_spec mx my) as [Hm|Hm|Hm]| |];
        cbn [CompOpp]; split; intros; try reflexivity; try discriminate; lia.
    + split; intros; try reflexivity; lia.
    + split; intros; try discriminate; lia.
    + destruct (Z.compare_spec ex ey) as [He|He|He];
        [destruct (Pos.compare_spec mx my) as [Hm|Hm|Hm]| |];
        split; intros; try reflexivity; try discriminate; lia.
Qed.

Lemma rkey_pos (k z : Z) : 0 < z -> rkey k z = Z.min KINF (KV z k).
Proof. destruct z; try lia. reflexivity. Qed.

Lemma rkey_neg (k z : Z) : z < 0 -> rkey k z = - Z.min KINF (KV (- z) k).
Proof. destruct z; try lia. reflexivity. Qed.

Lemma rkey_sgn (k : Z) (s : bool) (z : Z) :
  0 < z -> rkey k (sgn s z) = sgn s (Z.min KINF (KV z k)).
Proof.
  intros Hz. destruct s; cbn [sgn].
  - rewrite rkey_neg by lia. rewrite Z.opp_involutive. reflexivity.
  - apply rkey_pos, Hz.
Qed.

Lemma rkey_rebase (k j z : Z) : 0 <= j -> rkey (k - j) (z * 2 ^ j) = rkey k z.
Proof.
  intros Hj. assert (Hp : 0 < 2 ^ j) by (apply Z.pow_pos_nonneg; lia).
  destruct (Z.lt_trichotomy z 0) as [Hz|[->|Hz]].
  - rewrite !rkey_neg by nia.
    replace (- (z * 2 ^ j)) with (- z * 2 ^ j) by ring.
    rewrite KV_rebase by lia. reflexivity.
  - reflexivity.
  - rewrite !rkey_pos by nia. rewrite KV_rebase by lia. reflexivity.
Qed.

Lemma binary_normalize_key (z e : Z) :
  skey (binary_normalize prec emax z e false) = rkey e z
  /\ is_nan (binary_normalize prec emax z e false) = false.
Proof.
  destruct z as [|p|p]; cbn [binary_normalize rkey].
  - split; reflexivity.
  - apply (binary_round_key false).
  - apply (binary_round_key true).
Qed.

(** A valid finite number is its own rounding. *)
Lemma KV_bounded (m : positive) (e : Z) :
  bounded prec emax m e = true -> KV (Zpos m) e = ukey (Zpos m) e.
Proof.
  intros H. apply bounded_inv in H as (_ & _ & _ & Hf).
  rewrite KV_ukey, Hf, Z.sub_diag. cbn [sshift]. rewrite rne_exact.
  reflexivity.
Qed.

Lemma pow2_pos (a : Z) : 0 <= a -> 0 < 2 ^ a.
Proof. intros. apply Z.pow_pos_nonneg; lia. Qed.

Lemma skey_ival (x : spec_float) :
  valid_binary x = true -> is_finite x = true ->
  skey x = rkey (-1074) (ival x).
Proof.
  intros V F. destruct x as [s|s| |s m e]; try discriminate.
  - reflexivity.
  - cbn [valid_binary] in V. cbn [skey ival].
    pose proof (bounded_inv m e V) as (He & _).
    pose proof (pow2_pos (e + 1074) ltac:(lia)).
    rewrite rkey_sgn by nia. f_equal.
    replace (-1074) with (e - (e + 1074)) by lia.
    rewrite KV_rebase, KV_bounded by (assumption || lia).
    pose proof (skey_finite_range s m e V). lia.
Qed.

Lemma ival_le (x y : spec_float) :
  valid_binary x = true -> valid_binary y = true ->
  is_finite x = true -> is_finite y = true ->
  skey x <= skey y -> ival x <= ival y.
Proof.
  intros Vx Vy Fx Fy.
  assert (Hpos : forall (s : bool) m e, bounded prec emax m e = true ->
                               0 < Zpos m * 2 ^ (e + 1074)).
  { intros s m e V. pose proof (bounded_inv m e V) as (He & _).
    pose proof (pow2_pos (e + 1074) ltac:(lia)). nia. }
  destruct x as [sx|sx| |sx mx ex], y as [sy|sy| |sy my ey];
    try discriminate; cbn [valid_binary] in Vx, Vy; cbn [skey ival];
    try (pose proof (skey_finite_range sx mx ex Vx) as Rx);
    try (pose proof (skey_finite_range sy my ey Vy) as Ry);
    try (pose proof (Hpos sx mx ex Vx) as Px);
    try (pose proof (Hpos sy my ey Vy) as Py).
  - destruct sy; cbn [sgn]; lia.
  - destruct sx; cbn [sgn]; lia.
  - assert (Hmono : forall m1 e1 m2 e2,
               bounded prec emax m1 e1 = true ->
               bounded prec emax m2 e2 = true ->
               ukey (Zpos m1) e1 <= ukey (Zpos m2) e2 ->
               Zpos m1 * 2 ^ (e1 + 1074) <= Zpos m2 * 2 ^ (e2 + 1074)).
    { intros m1 e1 m2 e2 V1 V2 Hle.
      apply (ukey_le_iff m1 m2 e1 e2 V1 V2) in Hle.
      pose proof (bounded_inv m1 e1 V1) as (He1 & Hm1 & _).
      pose proof (bounded_inv m2 e2 V2) as (He2 & _ & Hlow2 & _).
      destruct Hle as [Hlt|[-> Hm]].
      - specialize (Hlow2 ltac:(lia)).
        pose proof (pow2_pos (e1 + 1074) ltac:(lia)) as P1.
        assert (H2 : 2 * 2 ^ (e1 + 1074) <= 2 ^ (e2 + 1074)).
        { rewrite <- Z.pow_succ_r by lia. apply Z.pow_le_mono_r; lia. }
        nia.
      - apply Z.mul_le_mono_nonneg_r; [|lia].
        apply Z.lt_le_incl, pow2_pos. lia. }
    destruct sx, sy; cbn [sgn]; intros Hle; try lia.
    + assert (Hle' : ukey (Zpos my) ey <= ukey (Zpos mx) ex) by lia.
      apply Hmono in Hle'; try assumption. lia.
    + apply Hmono; assumption.
Qed.

Lemma shl_align_fst (m : positive) (e k : Z) :
  k <= e -> Zpos (fst (shl_align m e k)) = Zpos m * 2 ^ (e - k).
Proof.
  intros Hk. unfold shl_align. destruct (k - e) as [|d|d] eqn:Hd; try lia.
  - replace (e - k) with 0 by lia. cbn [fst]. rewrite Z.pow_0_r. lia.
  - cbn [fst]. rewrite iter_xO_pow2. f_equal. f_equal. lia.
Qed.

Lemma sgn_mul (s : bool) (a b : Z) : sgn s a * b = sgn s (a * b).
Proof. destruct s; cbn [sgn]; ring. Qed.

(** *** Addition *)

(** The sum of two finite numbers is the rounding of the exact sum. *)
Lemma SFadd_key (x y : spec_float) :
  valid_binary x = true -> valid_binary y = true ->
  is_finite x = true -> is_finite y = true ->
  skey (SFadd prec emax x y) = rkey (-1074) (ival x + ival y)
  /\ is_nan (SFadd prec emax x y) = false.
Proof.
  intros Vx Vy Fx Fy.
  destruct x as [sx|sx| |sx mx ex], y as [sy|sy| |sy my ey];
    try discriminate.
  - destruct sx, sy; split; reflexivity.
  - cbn [SFadd]. rewrite (skey_ival _ Vy Fy). split; reflexivity.
  - cbn [SFadd]. rewrite (skey_ival _ Vx Fx). cbn [ival].
    rewrite Z.add_0_r. split; reflexivity.
  - cbn [valid_binary] in Vx, Vy.
    pose proof (bounded_inv mx ex Vx) as (Hex & _).
    pose proof (bounded_inv my ey Vy) as (Hey & _).
    cbn [SFadd]. cbv zeta. set (ez := Z.min ex ey).
    change cond_Zopp with sgn.
    rewrite !shl_align_fst by (unfold ez; lia).
    destruct (binary_normalize_key
                (sgn sx (Z.pos mx * 2 ^ (ex - ez))
                 + sgn sy (Z.pos my * 2 ^ (ey - ez))) ez) as [Hk Hn].
    rewrite Hk. split; [|exact Hn].
    rewrite <- (rkey_rebase ez (ez + 1074)) by (unfold ez; lia).
    replace (ez - (ez + 1074)) with (-1074) by lia.
    f_equal. cbn [ival].
    rewrite Z.mul_add_distr_r, !sgn_mul, <- !Z.mul_assoc, <- !Z.pow_add_r
      by (unfold ez; lia).
    do 2 f_equal; f_equal; f_equal; lia.
Qed.

(** *** Multiplication by one half *)

Lemma SFmul_half_key (x : spec_float) :
  valid_binary x = true -> is_finite x = true ->
  skey (SFmul prec emax x SFhalf) = rkey (-1075) (ival x)
  /\ is_nan (SFmul prec emax x SFhalf) = false.
Proof.
  intros V F. destruct x as [s|s| |s m e]; try discriminate.
  - split; reflexivity.
  - cbn [valid_binary] in V.
    pose proof (bounded_inv m e V) as (He & _).
    unfold SFhalf. cbn [SFmul]. rewrite xorb_false_r, Pos2Z.inj_mul.
    change (Z.pos 4503599627370496) with (2 ^ 52).
    pose proof (Z.log2_nonneg (Zpos m)) as Hl.
    destruct (binary_round_aux_key s (Z.pos m * 2 ^ 52) (e + -53)) as [Hk Hn].
    { apply Z.mul_pos_pos; [lia | reflexivity]. }
    { rewrite Z.log2_mul_pow2 by lia. unfold fexp64. lia. }
    rewrite Hk. split; [|exact Hn]. cbn [ival].
    pose proof (pow2_pos (e + 1074) ltac:(lia)).
    rewrite rkey_sgn by nia. f_equal. f_equal.
    replace (e + -53) with (e - 1 - 52) by lia.
    rewrite KV_rebase by lia.
    replace (-1075) with (e - 1 - (e + 1074)) by lia.
    rewrite KV_rebase by lia. reflexivity.
Qed.

(** *** Monotone operations *)

Lemma SFleb_nan_l (x y : spec_float) : SFleb x y = true -> is_nan x = false.
Proof. destruct x; try reflexivity. discriminate. Qed.

Lemma SFleb_nan_r (x y : spec_float) : SFleb x y = true -> is_nan y = false.
Proof. destruct x, y; try reflexivity; discriminate. Qed.

Lemma SFleb_neg_inf (y : spec_float) :
  is_nan y = false -> SFleb (S754_infinity true) y = true.
Proof. destruct y as [s|[|]| |s m e]; try reflexivity. discriminate. Qed.

Lemma SFleb_pos_inf (x : spec_float) :
  is_nan x = false -> SFleb x (S754_infinity false) = true.
Proof. destruct x as [s|[|]| |[|] m e]; try reflexivity. discriminate. Qed.

Section MonotoneOperation.

(** An operation [F] that fixes the infinities and, on a finite number,
    returns the rounding of [(c0 + ival x) * 2^k]. *)
Variable F : spec_float -> spec_float.
Variables k c0 : Z.
Hypothesis F_finite : forall x,
    valid_binary x = true -> is_finite x = true ->
    skey (F x) = rkey k (c0 + ival x) /\ is_nan (F x) = false.
Hypothesis F_infinity : forall s, F (S754_infinity s) = S754_infinity s.

Lemma monotone_operation (a b : spec_float) :
  valid_binary a = true -> valid_binary b = true ->
  valid_binary (F a) = true -> valid_binary (F b) = true ->
  SFleb a b = true -> SFleb (F a) (F b) = true.
Proof.
  intros Va Vb VFa VFb Hab.
  pose proof (SFleb_nan_l a b Hab) as Na.
  pose proof (SFleb_nan_r a b Hab) as Nb.
  destruct (is_finite a) eqn:Fa, (is_finite b) eqn:Fb.
  - destruct (F_finite a Va Fa) as [Ka Nfa].
    destruct (F_finite b Vb Fb) as [Kb Nfb].
    apply SFleb_skey; try assumption. rewrite Ka, Kb.
    apply rkey_mono, Z.add_le_mono_l, ival_le; try assumption.
    apply SFleb_skey; assumption.
  - destruct (F_finite a Va Fa) as [_ Nfa].
    destruct b as [sb|sb| |sb mb eb]; try discriminate.
    rewrite F_infinity.
    destruct sb; [|apply SFleb_pos_inf, Nfa].
    destruct a as [sa|sa| |[|] ma ea]; discriminate.
  - destruct (F_finite b Vb Fb) as [_ Nfb].
    destruct a as [sa|sa| |sa ma ea]; try discriminate.
    rewrite F_infinity.
    destruct sa; [apply SFleb_neg_inf, Nfb|].
    destruct b as [sb|sb| |[|] mb eb]; discriminate.
  - destruct a as [sa|sa| |sa ma ea], b as [sb|sb| |sb mb eb];
      try discriminate.
    rewrite !F_infinity. exact Hab.
Qed.

End MonotoneOperation.

Lemma SFadd_comm (x y : spec_float) : SFadd prec emax x y = SFadd prec emax y x.
Proof.
  destruct x as [[|]|[|]| |sx mx ex], y as [[|]|[|]| |sy my ey];
    try reflexivity.
  cbn [SFadd]. cbv zeta. rewrite (Z.min_comm ex ey), Z.add_comm. reflexivity.
Qed.

(** Adding a finite constant on the left is monotone (binary64). *)
Theorem add_const_l_mono (c a b : float) :
  is_finite (Prim2SF c) = true ->
  (a <=? b)%float = true -> (c + a <=? c + b)%float = true.
Proof.
  rewrite !leb_spec, !add_spec. intros Fc Hab.
  apply (monotone_operation (SF64add (Prim2SF c)) (-1074) (ival (Prim2SF c)));
    try apply Prim2SF_valid; try (rewrite <- add_spec; apply Prim2SF_valid);
    try exact Hab.
  - intros x Vx Fx. apply SFadd_key; try assumption. apply Prim2SF_valid.
  - intros s. destruct (Prim2SF c); try discriminate; reflexivity.
Qed.

(** Adding a finite constant on the right is monotone (binary64). *)
Theorem add_const_r_mono (c a b : float) :
  is_finite (Prim2SF c) = true ->
  (a <=? b)%float = true -> (a + c <=? b + c)%float = true.
Proof.
  intros Fc Hab.
  assert (Hc : forall x, (x + c)%float = (c + x)%float).
  { intros x. apply Prim2SF_inj. rewrite !add_spec. apply SFadd_comm. }
  rewrite !Hc. apply add_const_l_mono; assumption.
Qed.

(** Multiplying by 0.5 is monotone (binary64). *)
Theorem mul_half_mono (a b : float) :
  (a <=? b)%float = true -> (a * 0.5 <=? b * 0.5)%float = true.
Proof.
  rewrite !leb_spec, !mul_spec. change (Prim2SF 0.5) with SFhalf. intros Hab.
  apply (monotone_operation (fun x => SF64mul x SFhalf) (-1075) 0);
    try apply Prim2SF_valid;
    try (change SFhalf with (Prim2SF 0.5); rewrite <- mul_spec;
         apply Prim2SF_valid);
    try exact Hab.
  - intros x Vx Fx. rewrite Z.add_0_l. apply SFmul_half_key; assumption.
  - intros [|]; reflexivity.
Qed.

(** *** The sign of a zero sum *)



(** *** Zeros *)

Lemma eqb_zero_inv (x : double) :
  (x =? 0)%float = true -> exists b, Prim2SF x = S754_zero b.
Proof.
  rewrite FloatAxioms.eqb_spec. change (Prim2SF 0) with (S754_zero false).
  destruct (Prim2SF x) as [b|b| |b m e]; try discriminate.
  - eauto.
  - destruct b; discriminate.
  - destruct b; discriminate.
Qed.

(** Adding a non-zero finite number to a zero returns that number. *)
Lemma zero_add_finite (x c : double) :
  (x =? 0)%float = true ->
  (exists b m e, Prim2SF c = S754_finite b m e) ->
  (x + c)%float = c.
Proof.
  intros Hx (b & m & e & Hc). destruct (eqb_zero_inv x Hx) as [bx Hz].
  apply Prim2SF_inj. rewrite add_spec, Hz, Hc. reflexivity.
Qed.

(** ** Exact scaling by a power of two *)

Lemma scalable_finite_inv (j : Z) (s : bool) (m : positive) (e : Z) :
  valid_binary (S754_finite s m e) = true ->
  scalable j (S754_finite s m e) = true ->
  Z.log2 (Zpos m) = 52 /\ two52 <= Zpos m < two53
  /\ -1074 <= e /\ -1074 < e + j <= 971.
Proof.
  cbn [valid_binary scalable]. intros V H.
  apply bounded_inv in V as (He & Hm & _ & _).
  apply andb_true_iff in H as [H H3]. apply andb_true_iff in H as [H1 H2].
  apply Z.leb_le in H1, H3. apply Z.ltb_lt in H2.
  split; [|lia].
  apply Z.log2_unique; [lia|].
  change (2 ^ 52) with two52. change (2 ^ (52 + 1)) with two53. lia.
Qed.

(** Multiplying a scalable number by [2^j] moves its exponent. *)
Lemma SFmul_pow2 (j : Z) (x : spec_float) :
  valid_binary x = true -> scalable j x = true ->
  SFmul prec emax x (S754_finite false 4503599627370496 (j - 52))
  = sf_scale j x.
Proof.
  intros V H. destruct x as [s|s| |s m e]; try discriminate.
  - destruct s; reflexivity.
  - destruct (scalable_finite_inv j s m e V H) as (Hlog & Hm & He & Hej).
    cbn [SFmul sf_scale]. rewrite xorb_false_r, Pos2Z.inj_mul.
    change (Z.pos 4503599627370496) with (2 ^ 52).
    assert (Hl : Z.log2 (Z.pos m * 2 ^ 52) + 1 + (e + (j - 52)) = 53 + (e + j))
      by (rewrite Z.log2_mul_pow2 by lia; lia).
    assert (Hf : fexp64 (53 + (e + j)) = e + j) by (unfold fexp64; lia).
    rewrite binary_round_aux_spec;
      [|apply Z.mul_pos_pos; [lia|reflexivity] | rewrite Hl, Hf; lia].
    rewrite Hl, Hf.
    replace (e + j - (e + (j - 52))) with (0 + 52) by lia.
    rewrite Z.mul_assoc, sshift_rebase by lia. cbn [sshift].
    rewrite rne_exact. unfold pack.
    destruct (Z.eqb_spec (Z.pos m) 0); [lia|].
    destruct (Z.eqb_spec (Z.pos m) two53); [lia|].
    destruct (Z.leb_spec (e + j) 971); [|lia].
    reflexivity.
Qed.

(** Division does not see a common power of two. *)
Lemma SFdiv_scale (j : Z) (x y : spec_float) :
  is_finite x = true -> is_finite y = true ->
  SFdiv prec emax (sf_scale j x) (sf_scale j y) = SFdiv prec emax x y.
Proof.
  intros Fx Fy.
  destruct x as [sx|sx| |sx mx ex], y as [sy|sy| |sy my ey];
    try discriminate; try reflexivity.
  cbn [sf_scale SFdiv]. unfold SFdiv_core_binary.
  replace (Zdigits2 (Z.pos mx) + (ex + j) - (Zdigits2 (Z.pos my) + (ey + j)))
    with (Zdigits2 (Z.pos mx) + ex - (Zdigits2 (Z.pos my) + ey)) by lia.
  replace (ex + j - (ey + j)) with (ex - ey) by lia.
  reflexivity.
Qed.

(** Rounding commutes with an exact scaling that keeps the result normal. *)
Lemma binary_round_scale (j : Z) (s : bool) (p : positive) (e : Z) :
  -1074 <= e ->
  scalable j (binary_round prec emax s p e) = true ->
  binary_round prec emax s p (e + j)
  = sf_scale j (binary_round prec emax s p e).
Proof.
  intros He. rewrite !binary_round_spec.
  replace (Z.log2 (Z.pos p) + 1 + (e + j))
    with (Z.log2 (Z.pos p) + 1 + e + j) by lia.
  pose proof (rounded_upper (Zpos p) e ltac:(lia)) as Hup.
  pose proof (rounded_lower (Zpos p) e ltac:(lia)) as Hlow.
  pose proof (rounded_nonneg (Zpos p) e ltac:(lia)) as Hq0.
  pose proof (KV_pos (Zpos p) e ltac:(lia) He) as Hpos.
  rewrite KV_ukey in Hpos. unfold ukey in Hpos.
  pose proof (Z.log2_nonneg (Zpos p)) as Hlp.
  set (L := Z.log2 (Z.pos p) + 1 + e) in *.
  set (f := fexp64 L) in *.
  set (q := rne (sshift (f - e) (4 * Z.pos p))) in *.
  assert (Hf : -1074 <= f) by (unfold f, fexp64; lia).
  intros H.
  (* the result is normal *)
  assert (Hnorm : two52 <= q
                  /\ (q = two53 -> -1074 < f + 1 + j <= 971 /\ f + 1 <= 971)
                  /\ (q <> two53 -> -1074 < f + j <= 971 /\ f <= 971)).
  { unfold pack in H.
    destruct (Z.eqb_spec q 0) as [Hq|Hq].
    { assert (-1074 < f) by lia. specialize (Hlow ltac:(lia)). lia. }
    destruct (Z.eqb_spec q two53) as [Hq53|Hq53].
    - destruct (Z.leb_spec (f + 1) 971); [|discriminate H].
      cbn [scalable] in H.
      apply andb_true_iff in H as [H H3]. apply andb_true_iff in H as [H1 H2].
      apply Z.leb_le in H3. apply Z.ltb_lt in H2. lia.
    - destruct (Z.leb_spec f 971); [|discriminate H].
      cbn [scalable] in H. rewrite Z2Pos.id in H by lia.
      apply andb_true_iff in H as [H H3]. apply andb_true_iff in H as [H1 H2].
      apply Z.leb_le in H1, H3. apply Z.ltb_lt in H2. lia. }
  destruct Hnorm as (Hq52 & Hc1 & Hc2).
  (* so the target exponent is in the normal range *)
  assert (HfL : f = L - 53).
  { destruct (Z.eq_dec f (L - 53)) as [|Hne]; [assumption|exfalso].
    assert (Hf0 : f = -1074) by (unfold f, fexp64 in *; lia).
    assert (HL : L - 53 < -1074) by (unfold f, fexp64 in *; lia).
    assert (Hq : q = Z.pos p * 2 ^ (e + 1074)).
    { unfold q. rewrite Hf0.
      destruct (-1074 - e) as [|n|n] eqn:Hn; try lia; cbn [sshift].
      - rewrite rne_exact. replace (e + 1074) with 0 by lia.
        rewrite Z.pow_0_r. lia.
      - replace (4 * Z.pos p * 2 ^ Z.pos n) with (4 * (Z.pos p * 2 ^ Z.pos n))
          by ring.
        rewrite rne_exact. f_equal. f_equal. lia. }
    assert (Hlq : 52 <= Z.log2 q).
    { apply Z.log2_le_pow2; [lia|]. change (2 ^ 52) with two52. lia. }
    rewrite Hq, Z.log2_mul_pow2 in Hlq by lia. unfold L in HL. lia. }
  assert (Hf' : fexp64 (L + j) = f + j).
  { destruct (Z.eq_dec q two53) as [Hq|Hq];
      [specialize (Hc1 Hq) | specialize (Hc2 Hq)]; unfold fexp64; lia. }
  rewrite Hf'. replace (f + j - (e + j)) with (f - e) by lia. fold q.
  unfold pack.
  destruct (Z.eqb_spec q 0) as [Hq|Hq]; [lia|].
  destruct (Z.eqb_spec q two53) as [Hq53|Hq53].
  - specialize (Hc1 Hq53).
    destruct (Z.leb_spec (f + j + 1) 971); [|lia].
    destruct (Z.leb_spec (f + 1) 971); [|lia].
    cbn [sf_scale]. f_equal. lia.
  - specialize (Hc2 Hq53).
    destruct (Z.leb_spec (f + j) 971); [|lia].
    destruct (Z.leb_spec f 971); [|lia].
    reflexivity.
Qed.

Lemma shl_align_fst_shift (m : positive) (e k j : Z) :
  fst (shl_align m (e + j) (k + j)) = fst (shl_align m e k).
Proof.
  unfold shl_align. replace (k + j - (e + j)) with (k - e) by lia.
  destruct (k - e); reflexivity.
Qed.

(** Addition commutes with an exact scaling of the operands and the sum. *)
Lemma SFadd_scale (j : Z) (x y : spec_float) :
  valid_binary x = true -> valid_binary y = true ->
  scalable j x = true -> scalable j y = true ->
  scalable j (SFadd prec emax x y) = true ->
  SFadd prec emax (sf_scale j x) (sf_scale j y)
  = sf_scale j (SFadd prec emax x y).
Proof.
  intros Vx Vy Sx Sy Sxy.
  destruct x as [[|]|sx| |sx mx ex], y as [[|]|sy| |sy my ey];
    try discriminate; try reflexivity.
  cbn [valid_binary] in Vx, Vy.
  pose proof (bounded_inv mx ex Vx) as (Hex & _).
  pose proof (bounded_inv my ey Vy) as (Hey & _).
  cbn [SFadd sf_scale] in *. cbv zeta in *.
  rewrite Z.add_min_distr_r, !shl_align_fst_shift.
  set (z := cond_Zopp sx (Z.pos (fst (shl_align mx ex (Z.min ex ey))))
            + cond_Zopp sy (Z.pos (fst (shl_align my ey (Z.min ex ey))))) in *.
  destruct z as [|p|p]; cbn [binary_normalize] in *.
  - reflexivity.
  - apply binary_round_scale; [lia | exact Sxy].
  - apply binary_round_scale; [lia | exact Sxy].
Qed.

(** * Trader eligibility *)

(** A balance below the pattern-day-trader limit (the [int] 25000,
    converted) is below the minimum account balance, for every double. *)
Lemma below_pdt_limit_below_minimum (b : double) :
  dlt b (double_of_int PATTERN_DAY_TRADER_LIMIT) = true ->
  dlt b MIN_ACCOUNT_BALANCE = true.
Proof.
  unfold dlt. rewrite !ltb_spec.
  change (Prim2SF (double_of_int PATTERN_DAY_TRADER_LIMIT))
    with (S754_finite false 6871947673600000 (-38)).
  change (Prim2SF MIN_ACCOUNT_BALANCE)
    with (S754_finite false 6871947673600000 (-37)).
  unfold SFltb, SFcompare.
  destruct (Prim2SF b) as [sb|sb| |sb m e]; try destruct sb;
    try discriminate; try (intros _; reflexivity).
  destruct (Z.compare_spec e (-38)) as [->|Hlt|Hgt].
  - intros _. reflexivity.
  - intros _.
    assert (He : (e ?= -37) = Lt) by (apply Z.compare_lt_iff; lia).
    rewrite He. reflexivity.
  - discriminate.
Qed.

(** C9: [validateTraderEligibility] never prints the pattern-day-trader
    warning.  The warning needs a balance below 25,000, and every profile
    with such a balance has already been rejected by the balance rule
    (below 50,000) or by the experience rule before it. *)
Theorem pdt_warning_unreachable (trader : TraderProfile) (s : TradingRiskManager) :
  ~ In PDT_LINE (printed (validateTraderEligibility trader s)).
Proof.
  unfold validateTraderEligibility. unfold_M.
  destruct (experience_years trader <? MIN_TRADING_EXPERIENCE);
    [cbn; intros [H|[]]; discriminate|].
  destruct (dlt (account_balance trader) MIN_ACCOUNT_BALANCE) eqn:Hbal;
    [cbn; intros [H|[]]; discriminate|].
  destruct ((jurisdiction trader =? "RESTRICTED")%string || _);
    [cbn; intros [H|[]]; discriminate|].
  destruct ((risk_level trader =? "HIGH")%string && _);
    [cbn; intros [H|[]]; discriminate|].
  destruct (dlt (account_balance trader) (double_of_int PATTERN_DAY_TRADER_LIMIT))
    eqn:Hpdt.
  - apply below_pdt_limit_below_minimum in Hpdt. congruence.
  - rewrite andb_false_r. cbn. tauto.
Qed.

(** * Order validation *)

(** ** Order size limit *)

(** C5: an order whose value [quantity * price] exceeds 1,000,000 is
    rejected by [validateTradeOrder] whatever the other fields of the
    order, the trader profile and the counters are; the call prints the
    order-size reason only and leaves the manager untouched. *)
Theorem order_value_over_limit_rejected
        (order : TradeOrder) (trader : TraderProfile) (s : TradingRiskManager)
        (Hbig : dgt (quantity order * price order)%float MAX_ORDER_SIZE = true) :
  validateTradeOrder order trader s
  = (false, s, ["REJECTED: Order size exceeds maximum allowed"]).
Proof.
  unfold validateTradeOrder. rewrite Hbig. reflexivity.
Qed.

Lemma order_value_over_limit_rejected_witness :
  validateTradeOrder big_order sample_trader fresh
  = (false, fresh, ["REJECTED: Order size exceeds maximum allowed"]).
Proof.
  apply (order_value_over_limit_rejected big_order sample_trader fresh).
  vm_compute. reflexivity.
Defined.

(** ** The rules in their fixed order *)

Lemma trade_count_at_run (id : Z) (s : TradingRiskManager) :
  trade_count_at id s = (trades_today s id, entry_created s id, []).
Proof.
  unfold trade_count_at, trades_today, entry_created.
  destruct (daily_trade_counts s !! id); reflexivity.
Qed.

(** [validateTradeOrder] against the rule list: the flag, the lines and
    the state for each first rejecting rule. *)
Lemma validateTradeOrder_run
      (order : TradeOrder) (trader : TraderProfile) (s : TradingRiskManager) :
  validateTradeOrder order trader s
  = match first_rejection order trader (trades_today s (trader_id trader)) with
    | Some rule =>
        if before_count rule then (false, s, [reason rule])
        else (false, entry_created s (trader_id trader),
              match rule with
              | ExtendedHoursExperience => sector_info order ++ [reason rule]
              | _ => [reason rule]
              end)%list
    | None => (true, entry_created s (trader_id trader), sector_info order)
    end.
Proof.
  unfold validateTradeOrder, first_rejection, order_rules, sector_info.
  unfold_M. cbn [find rejects].
  change MAX_ORDER_SIZE with 1000000%float.
  change MAX_TRADES_PER_DAY with 100.
  destruct (dgt (quantity order * price order) 1000000); [reflexivity|].
  destruct (dgt (volatility_score order) 0.8 && _); [reflexivity|].
  destruct ((order_type order =? "SHORT")%string && _); [reflexivity|].
  destruct (is_margin_trade order && _); [reflexivity|].
  rewrite trade_count_at_run.
  destruct (trades_today s (trader_id trader) >=? 100); [reflexivity|].
  destruct (negb (sector order =? "DIVERSIFIED")%string);
    destruct ((time_in_force order =? "EXTENDED_HOURS")%string && _);
    reflexivity.
Qed.

Lemma first_rejection_spec
      (order : TradeOrder) (trader : TraderProfile) (n : Z) (rule : OrderRule) :
  first_rejection order trader n = Some rule <->
  rejects order trader n rule = true
  /\ forall earlier, (rule_index earlier < rule_index rule)%nat ->
                     rejects order trader n earlier = false.
Proof.
  unfold first_rejection, order_rules. cbn [find]. split.
  - intros H.
    destruct (rejects order trader n OrderSize) eqn:H1;
      [injection H as <-; split; [exact H1|];
       intros [] Hlt; cbn in Hlt; try lia; assumption|].
    destruct (rejects order trader n VolatilityLowTier) eqn:H2;
      [injection H as <-; split; [exact H2|];
       intros [] Hlt; cbn in Hlt; try lia; assumption|].
    destruct (rejects order trader n RetailShortSize) eqn:H3;
      [injection H as <-; split; [exact H3|];
       intros [] Hlt; cbn in Hlt; try lia; assumption|].
    destruct (rejects order trader n MarginSufficiency) eqn:H4;
      [injection H as <-; split; [exact H4|];
       intros [] Hlt; cbn in Hlt; try lia; assumption|].
    destruct (rejects order trader n DailyTradeLimit) eqn:H5;
      [injection H as <-; split; [exact H5|];
       intros [] Hlt; cbn in Hlt; try lia; assumption|].
    destruct (rejects order trader n ExtendedHoursExperience) eqn:H6;
      [injection H as <-; split; [exact H6|];
       intros [] Hlt; cbn in Hlt; try lia; assumption|].
    discriminate.
  - intros [Hr He].
    destruct rule; cbn in He;
      repeat match goal with
        | |- context [rejects order trader n ?c] =>
            first [ rewrite (He c) by (cbn; lia) | rewrite Hr ]
        end; reflexivity.
Qed.

(** C3: [validateTradeOrder] tries its six rejection rules in the fixed
    order (order size, volatility with a low tier, retail short size,
    margin sufficiency, daily trade limit, extended-hours experience) and
    stops at the first one that rejects: it returns [false] exactly when
    some rule rejects, the only rejection line it prints is the reason of
    the first rejecting rule, and nothing that follows that rule in the
    source is executed (when one of the first four rules rejects, the
    trades-today entry is not even looked up and no other line is
    printed). *)
Theorem first_rejection_reported
        (order : TradeOrder) (trader : TraderProfile) (s : TradingRiskManager) :
  let r := validateTradeOrder order trader s in
  let n := trades_today s (trader_id trader) in
  (returned r = false <-> exists rule, rejects order trader n rule = true)
  /\ (forall rule,
        rejects order trader n rule = true ->
        (forall earlier, (rule_index earlier < rule_index rule)%nat ->
                         rejects order trader n earlier = false) ->
        returned r = false
        /\ List.filter is_rejection_line (printed r) = [reason rule]
        /\ last (printed r) = Some (reason rule)
        /\ (before_count rule = true -> r = (false, s, [reason rule])))
  /\ ((forall rule, rejects order trader n rule = false) ->
      returned r = true /\ List.filter is_rejection_line (printed r) = []).
Proof.
  cbv zeta. rewrite validateTradeOrder_run.
  set (n := trades_today s (trader_id trader)).
  split; [|split].
  - destruct (first_rejection order trader n) as [rule|] eqn:Hf.
    + apply first_rejection_spec in Hf as [Hr _].
      split; [eauto|]. intros _. destruct (before_count rule); reflexivity.
    + split; [discriminate|]. intros [rule Hr]. exfalso.
      unfold first_rejection, order_rules in Hf. cbn [find] in Hf.
      destruct rule;
        repeat match type of Hf with
          | context [rejects order trader n ?c] =>
              destruct (rejects order trader n c); try discriminate
          end.
  - intros rule Hr He.
    rewrite (proj2 (first_rejection_spec order trader n rule) (conj Hr He)).
    unfold sector_info.
    destruct rule; cbn [before_count];
      try destruct (negb (sector order =? "DIVERSIFIED")%string);
      unfold returned, printed; cbn;
      repeat split; intros; try reflexivity; try discriminate.
  - intros Hnone.
    assert (Hf : first_rejection order trader n = None).
    { unfold first_rejection, order_rules. cbn [find]. rewrite !Hnone.
      reflexivity. }
    rewrite Hf. unfold sector_info.
    destruct (negb (sector order =? "DIVERSIFIED")%string);
      unfold returned, printed; cbn; split; reflexivity.
Qed.

(** An order that trips the volatility, short-size, margin and
    extended-hours rules at once reports the volatility reason only. *)
Example first_rejection_example :
  validateTradeOrder volatile_short_order low_tier_trader fresh
  = (false, fresh,
     ["REJECTED: High volatility instrument not allowed for low-risk trader"])
  /\ rejects volatile_short_order low_tier_trader 0 RetailShortSize = true
  /\ rejects volatile_short_order low_tier_trader 0 MarginSufficiency = true
  /\ rejects volatile_short_order low_tier_trader 0 ExtendedHoursExperience
     = true.
Proof. vm_compute. repeat split. Qed.

(** ** The counters across an order validation *)

Lemma state_after_validateTradeOrder
      (order : TradeOrder) (trader : TraderProfile) (s : TradingRiskManager) :
  state_after (validateTradeOrder order trader s) = s
  \/ state_after (validateTradeOrder order trader s)
     = entry_created s (trader_id trader).
Proof.
  rewrite validateTradeOrder_run.
  destruct (first_rejection _ _ _) as [rule|];
    [destruct (before_count rule)|]; unfold state_after; cbn; auto.
Qed.

(** C4, as stated, fails: validating the sample order of [main] on a
    freshly constructed manager leaves a manager that is not the fresh
    one, because [daily_trade_counts[123]] created the entry [123 -> 0]. *)
Lemma counters_store_changed :
  state_after (validateTradeOrder sample_order sample_trader fresh) <> fresh
  /\ daily_trade_counts
       (state_after (validateTradeOrder sample_order sample_trader fresh))
     = {[ 123 := 0 ]}.
Proof.
  split.
  - intros H.
    apply (f_equal (fun s => daily_trade_counts s !! 123)) in H.
    vm_compute in H. discriminate.
  - rewrite validateTradeOrder_run. vm_compute. reflexivity.
Qed.

(** C4, amended: [validateTradeOrder] changes no count and no loss.  The
    trades-today count of every trader (0 for a trader with no entry) and
    the whole loss map are the same after the call as before, and every
    entry of the count map is kept.  The only change the call makes is to
    create the entry [trader_id -> 0] for the trader of the call, when the
    map had none and none of the first four rules rejected (the count is
    then looked up); when the trader has an entry, or one of the first
    four rules rejects, the manager is unchanged. *)
Theorem counters_values_unchanged
        (order : TradeOrder) (trader : TraderProfile) (s : TradingRiskManager) :
  let s' := state_after (validateTradeOrder order trader s) in
  let id := trader_id trader in
  daily_losses s' = daily_losses s
  /\ (forall i, trades_today s' i = trades_today s i)
  /\ (forall i n, daily_trade_counts s !! i = Some n ->
                  daily_trade_counts s' !! i = Some n)
  /\ s' = match first_rejection order trader (trades_today s id) with
          | Some rule => if before_count rule then s else entry_created s id
          | None => entry_created s id
          end
  /\ (s' = s
      \/ daily_trade_counts s !! id = None
         /\ daily_trade_counts s' = <[id := 0]> (daily_trade_counts s))
  /\ (forall n, daily_trade_counts s !! id = Some n -> s' = s).
Proof.
  cbv zeta.
  assert (Hexact : state_after (validateTradeOrder order trader s)
                   = match first_rejection order trader
                             (trades_today s (trader_id trader)) with
                     | Some rule => if before_count rule then s
                                    else entry_created s (trader_id trader)
                     | None => entry_created s (trader_id trader)
                     end).
  { rewrite validateTradeOrder_run.
    destruct (first_rejection _ _ _) as [rule|];
      [destruct (before_count rule)|]; reflexivity. }
  split; [|split; [|split; [|split; [exact Hexact|]]]];
    clear Hexact;
    destruct (state_after_validateTradeOrder order trader s) as [-> | ->];
    auto; unfold entry_created, trades_today;
    destruct (daily_trade_counts s !! trader_id trader) as [n0|] eqn:Hl;
    auto; cbn [daily_losses daily_trade_counts].
  - intros i. destruct (decide (trader_id trader = i)) as [<-|Hne].
    + rewrite lookup_insert_eq, Hl. reflexivity.
    + rewrite lookup_insert_ne by exact Hne. reflexivity.
  - intros i n Hn. destruct (decide (trader_id trader = i)) as [<-|Hne].
    + congruence.
    + rewrite lookup_insert_ne by exact Hne. exact Hn.
  - split; [auto|]. intros n Hn. discriminate.
Qed.

(** * Portfolio risk *)

(** ** A zero total value *)

Section PortfolioZero.

Variable c_abs : double -> double.

Lemma total_portfolio_value_fold (positions : list PortfolioPosition) (a : Metrics) :
  total_portfolio_value (fold_left (metrics_step c_abs) positions a)
  = fold_left (fun t p => (t + current_value p)%float) positions
              (total_portfolio_value a).
Proof.
  revert a. induction positions as [|p ps IH]; intros a; cbn [fold_left].
  - reflexivity.
  - rewrite IH. reflexivity.
Qed.



End PortfolioZero.

(** [0 / b] is a zero or a NaN: never above the leverage limit. *)
Lemma leverage_check_passes_at_zero (total balance : double) :
  Prim2SF total = S754_zero false ->
  dgt (leverage_ratio total balance) MAX_LEVERAGE_RATIO = false.
Proof.
  intros Ht. unfold dgt, leverage_ratio.
  rewrite ltb_spec, div_spec, Ht.
  change (Prim2SF MAX_LEVERAGE_RATIO)
    with (S754_finite false 5629499534213120 (-49)).
  unfold SF64div.
  destruct (Prim2SF balance) as [sb|sb| |sb m e]; cbn [SFdiv];
    try destruct sb; reflexivity.
Qed.

(** [b / 0] with [b] not negative is [+infinity] or a NaN: never below a
    positive threshold. *)
Lemma margin_check_passes_at_zero (total balance threshold : double) :
  Prim2SF total = S754_zero false ->
  dlt balance 0 = false ->
  (exists m e, Prim2SF threshold = S754_finite false m e) ->
  dlt (margin_equity_ratio total balance) threshold = false.
Proof.
  intros Ht Hb (m & e & Hc). unfold dlt, margin_equity_ratio in *.
  rewrite ltb_spec in Hb. rewrite ltb_spec, div_spec, Ht, Hc.
  change (Prim2SF 0) with (S754_zero false) in Hb.
  unfold SF64div.
  destruct (Prim2SF balance) as [sb|sb| |sb mb eb]; cbn [SFdiv];
    try destruct sb; try reflexivity; discriminate Hb.
Qed.

Lemma ratio_checks_pass_at_zero (total balance : double) (s : TradingRiskManager) :
  Prim2SF total = S754_zero false ->
  dlt balance 0 = false ->
  leverage_and_margin_checks total balance s = (true, s, []).
Proof.
  intros Ht Hb. unfold leverage_and_margin_checks.
  rewrite (leverage_check_passes_at_zero total balance Ht).
  rewrite !(margin_check_passes_at_zero total balance _ Ht Hb)
    by (vm_compute; eauto).
  reflexivity.
Qed.

(** The balance hypothesis of the next theorem cannot be dropped.  The
    code accepts any double as a balance, and for a negative one (outside
    the data model, whose balances are not negative) an empty portfolio
    (total value 0) is rejected by the margin-equity rule, since [-1 / 0]
    is [-infinity], which is below both thresholds. *)
Lemma negative_balance_zero_total_rejected :
  (total_portfolio_value (portfolio_metrics PrimFloat.abs []) =? 0)%float = true
  /\ validatePortfolioRisk PrimFloat.abs [] indebted_trader fresh
     = (false, fresh,
        ["WARNING: Portfolio losses exceed 20% of account balance";
         "MARGIN CALL: Account below margin maintenance requirement";
         "FORCED LIQUIDATION: Account below liquidation threshold"])
  /\ validatePortfolioRisk PrimFloat.abs [] indebted_trader fresh
     <> portfolio_checks_skipping_ratios PrimFloat.abs [] indebted_trader fresh.
Proof.
  split; [vm_compute; reflexivity|]. split; [vm_compute; reflexivity|].
  intros H. apply (f_equal returned) in H. vm_compute in H. discriminate.
Qed.



(** With the hedged portfolio (total value zero) the concentration
    warning of the 5,000 position is still printed, and the call returns
    [true]. *)
Example hedged_portfolio_run :
  validatePortfolioRisk PrimFloat.abs hedged_positions sample_trader fresh
  = (true, fresh, ["WARNING: Single position exceeds 20% of portfolio"]).
Proof. vm_compute. reflexivity. Qed.

(** ** Scaling the balance and the positions *)

(** C7, as stated, fails: with a balance of 70,000 and one position of
    700,000 the leverage ratio is exactly 10 and the call returns [true];
    with both multiplied by 1.1 the computed leverage ratio is
    10.000000000000002 and the call returns [false]. *)
Lemma scaling_changes_verdict :
  let total := total_portfolio_value
                 (portfolio_metrics PrimFloat.abs leveraged_positions) in
  let total' := total_portfolio_value
                  (portfolio_metrics PrimFloat.abs
                     (map (scale_position 1.1) leveraged_positions)) in
  let balance := account_balance leveraged_trader in
  let balance' := account_balance (scale_trader 1.1 leveraged_trader) in
  leverage_ratio total balance = 10%float
  /\ leverage_ratio total' balance' = 10.000000000000002%float
  /\ leverage_ratio total' balance' <> leverage_ratio total balance
  /\ returned (leverage_and_margin_checks total balance fresh) = true
  /\ returned (leverage_and_margin_checks total' balance' fresh) = false
  /\ returned (validatePortfolioRisk PrimFloat.abs leveraged_positions
                 leveraged_trader fresh) = true
  /\ returned (validatePortfolioRisk PrimFloat.abs
                 (map (scale_position 1.1) leveraged_positions)
                 (scale_trader 1.1 leveraged_trader) fresh) = false.
Proof.
  cbv zeta. repeat split; try (vm_compute; reflexivity).
  intros H. apply (f_equal Prim2SF) in H. vm_compute in H. discriminate.
Qed.

(** *** Exact scaling of the totals *)

Section ScaleByPowerOfTwo.

Variables (k : double) (j : Z).
Hypothesis k_pow2 : is_pow2 k j.

Lemma mul_pow2 (x : double) :
  scalable j (Prim2SF x) = true ->
  Prim2SF (x * k) = sf_scale j (Prim2SF x).
Proof.
  intros H. rewrite mul_spec, k_pow2.
  apply SFmul_pow2; [apply Prim2SF_valid | exact H].
Qed.

Lemma sf_scale_scalable_finite (x : spec_float) :
  scalable j x = true -> is_finite (sf_scale j x) = true /\ is_finite x = true.
Proof. destruct x; try discriminate; split; reflexivity. Qed.

Lemma add_scaled (a b : double) :
  scalable j (Prim2SF a) = true -> scalable j (Prim2SF b) = true ->
  scalable j (Prim2SF (a + b)) = true ->
  (a * k + b * k)%float = ((a + b) * k)%float.
Proof.
  intros Ha Hb Hab. apply Prim2SF_inj.
  rewrite add_spec, !mul_pow2 by assumption.
  rewrite add_spec in *.
  apply SFadd_scale; try apply Prim2SF_valid; assumption.
Qed.

Lemma div_scaled (a b : double) :
  scalable j (Prim2SF a) = true -> scalable j (Prim2SF b) = true ->
  (a * k / (b * k))%float = (a / b)%float.
Proof.
  intros Ha Hb. apply Prim2SF_inj.
  rewrite !div_spec, !mul_pow2 by assumption.
  apply SFdiv_scale; eapply sf_scale_scalable_finite; eassumption.
Qed.

Lemma sum_scaled (positions : list PortfolioPosition) (acc : double) :
  scalable j (Prim2SF acc) = true ->
  sums_scalable j acc positions = true ->
  fold_left (fun t p => (t + current_value p)%float)
            (map (scale_position k) positions) (acc * k)%float
  = (fold_left (fun t p => (t + current_value p)%float) positions acc * k)%float
  /\ scalable j (Prim2SF (fold_left (fun t p => (t + current_value p)%float)
                                    positions acc)) = true.
Proof.
  revert acc. induction positions as [|p ps IH]; intros acc Hacc Hall.
  - split; [reflexivity | exact Hacc].
  - cbn [sums_scalable] in Hall.
    apply andb_true_iff in Hall as [Hall Hrest].
    apply andb_true_iff in Hall as [Hp Hsum].
    cbn [map fold_left scale_position current_value].
    rewrite add_scaled by assumption.
    apply IH; assumption.
Qed.

End ScaleByPowerOfTwo.

(** C7, amended: scaling by a power of two that is exact.  When [k] is
    a power of two [2^j], and the balance, every current value and every
    running total of the positions are zeros or normal doubles whose
    product with [k] is finite and not below [2^-1021] in magnitude (no
    rounding, overflow or underflow), [validatePortfolioRisk] on the inputs
    with the balance and every current value multiplied by [k] computes
    the same total times [k], hence bit for bit the same leverage ratio and
    margin-equity ratio, and its leverage and margin-equity checks give the
    same verdict and print the same lines. *)
Theorem scaling_by_power_of_two
        (c_abs : double -> double) (k : double) (j : Z)
        (positions : list PortfolioPosition) (trader : TraderProfile)
        (Hk : is_pow2 k j)
        (Hbal : scalable j (Prim2SF (account_balance trader)) = true)
        (Hsums : sums_scalable j 0%float positions = true) :
  let total := total_portfolio_value (portfolio_metrics c_abs positions) in
  let total' := total_portfolio_value
                  (portfolio_metrics c_abs (map (scale_position k) positions)) in
  let balance := account_balance trader in
  let balance' := account_balance (scale_trader k trader) in
  total' = (total * k)%float
  /\ leverage_ratio total' balance' = leverage_ratio total balance
  /\ margin_equity_ratio total' balance' = margin_equity_ratio total balance
  /\ forall s, leverage_and_margin_checks total' balance' s
               = leverage_and_margin_checks total balance s.
Proof.
  cbv zeta. unfold portfolio_metrics. rewrite !total_portfolio_value_fold.
  cbn [total_portfolio_value scale_trader account_balance].
  assert (H0 : (0 * k)%float = 0%float).
  { apply Prim2SF_inj. rewrite mul_spec, Hk. reflexivity. }
  destruct (sum_scaled k j Hk positions 0%float) as [Hsum Hscal];
    [reflexivity | exact Hsums |].
  rewrite H0 in Hsum. rewrite Hsum.
  set (total := fold_left (fun t p => (t + current_value p)%float) positions
                          0%float) in *.
  assert (Hlev : leverage_ratio (total * k) (account_balance trader * k)
                 = leverage_ratio total (account_balance trader))
    by (apply (div_scaled k j Hk); assumption).
  assert (Hmar : margin_equity_ratio (total * k) (account_balance trader * k)
                 = margin_equity_ratio total (account_balance trader))
    by (apply (div_scaled k j Hk); assumption).
  repeat split; try assumption.
  intros s. unfold leverage_and_margin_checks. rewrite Hlev, Hmar. reflexivity.
Qed.

Lemma scaling_by_power_of_two_witness :
  let total := total_portfolio_value
                 (portfolio_metrics PrimFloat.abs leveraged_positions) in
  let total' := total_portfolio_value
                  (portfolio_metrics PrimFloat.abs
                     (map (scale_position 2) leveraged_positions)) in
  let balance := account_balance leveraged_trader in
  let balance' := account_balance (scale_trader 2 leveraged_trader) in
  total' = (total * 2)%float
  /\ leverage_ratio total' balance' = leverage_ratio total balance
  /\ margin_equity_ratio total' balance' = margin_equity_ratio total balance
  /\ forall s, leverage_and_margin_checks total' balance' s
               = leverage_and_margin_checks total balance s.
Proof.
  apply (scaling_by_power_of_two PrimFloat.abs 2%float 1 leveraged_positions
           leveraged_trader); vm_compute; reflexivity.
Defined.

(** * Daily loss monitor *)

(** One call of [checkDailyLossLimits], run: the new cumulative loss is
    stored first, then compared with the limit and with 75% of it. *)
Lemma checkDailyLossLimits_run (id : Z) (loss : double) (s : TradingRiskManager) :
  let new := (cumulative_loss s id + loss)%float in
  checkDailyLossLimits id loss s
  = if dgt new MAX_DAILY_LOSS
    then (false, loss_recorded s id new, [SUSPENDED_LINE])
    else (true, loss_recorded s id new,
          if dgt new (MAX_DAILY_LOSS * 0.75)%float
          then [APPROACHING_LINE] else []).
Proof.
  intros new. unfold checkDailyLossLimits, loss_add, loss_at. unfold_M.
  cbn [daily_losses daily_trade_counts].
  rewrite lookup_insert_eq.
  fold (cumulative_loss s id). fold new. fold (loss_recorded s id new).
  destruct (dgt new MAX_DAILY_LOSS); [reflexivity|].
  cbn [daily_losses loss_recorded]. rewrite lookup_insert_eq.
  destruct (dgt new (MAX_DAILY_LOSS * 0.75)); reflexivity.
Qed.

Lemma cumulative_loss_recorded (s : TradingRiskManager) (id : Z) (x : double) :
  daily_losses (loss_recorded s id x) !! id = Some x
  /\ cumulative_loss (loss_recorded s id x) id = x.
Proof.
  unfold cumulative_loss, loss_recorded. cbn [daily_losses].
  rewrite lookup_insert_eq. split; reflexivity.
Qed.

(** C2: [checkDailyLossLimits] adds the loss to the trader's cumulative
    loss before it tests the limit, and a rejection does not undo it.  For
    every trader id, state and loss the manager holds the new cumulative
    loss after the call; the call returns [false] exactly when the new
    cumulative loss exceeds 500,000, and then the stored value still
    includes the loss. *)
Theorem loss_kept_on_rejection
        (id : Z) (loss : double) (s : TradingRiskManager) :
  let r := checkDailyLossLimits id loss s in
  let new := (cumulative_loss s id + loss)%float in
  daily_losses (state_after r) !! id = Some new
  /\ cumulative_loss (state_after r) id = new
  /\ (returned r = false <-> dgt new MAX_DAILY_LOSS = true)
  /\ (dgt new MAX_DAILY_LOSS = true ->
      r = (false, loss_recorded s id new, [SUSPENDED_LINE])).
Proof.
  cbv zeta. rewrite checkDailyLossLimits_run.
  set (new := (cumulative_loss s id + loss)%float).
  destruct (dgt new MAX_DAILY_LOSS) eqn:Hover;
    unfold returned, state_after; cbn [fst snd];
    (split; [apply cumulative_loss_recorded|]);
    (split; [apply cumulative_loss_recorded|]);
    split; try split; intros; try reflexivity; try discriminate.
Qed.

(** A loss of 600,000 on a fresh manager: rejected, and recorded. *)
Example loss_kept_on_rejection_example :
  checkDailyLossLimits 123 600000%float fresh
  = (false, loss_recorded fresh 123 600000%float, [SUSPENDED_LINE]).
Proof. vm_compute. reflexivity. Qed.

(** C10: in one call of [checkDailyLossLimits] the suspension (the
    rejection) and the approaching-limit warning exclude each other: the
    warning is printed only by a call that returns [true], that is, when
    the new cumulative loss is above 375,000 and not above 500,000. *)
Theorem rejection_and_warning_exclusive
        (id : Z) (loss : double) (s : TradingRiskManager) :
  let r := checkDailyLossLimits id loss s in
  let new := (cumulative_loss s id + loss)%float in
  (In APPROACHING_LINE (printed r) <->
     dgt new MAX_DAILY_LOSS = false /\ dgt new 375000%float = true)
  /\ (In APPROACHING_LINE (printed r) -> returned r = true)
  /\ (returned r = false -> printed r = [SUSPENDED_LINE])
  /\ ~ (In SUSPENDED_LINE (printed r) /\ In APPROACHING_LINE (printed r)).
Proof.
  cbv zeta. rewrite checkDailyLossLimits_run.
  replace (MAX_DAILY_LOSS * 0.75)%float with 375000%float
    by (vm_compute; reflexivity).
  set (new := (cumulative_loss s id + loss)%float).
  destruct (dgt new MAX_DAILY_LOSS) eqn:Hrej;
    [|destruct (dgt new 375000) eqn:Hwarn];
    unfold printed, returned, SUSPENDED_LINE, APPROACHING_LINE; cbn;
    intuition (try discriminate; try congruence).
Qed.

(** C6: losses accumulate.  For a trader whose cumulative loss is zero,
    recording 100,000 and then 450,000 leaves a cumulative loss of 550,000
    and the second call returns [false] (550,000 > 500,000); recording
    450,000 first and 100,000 second ends with the same cumulative loss,
    indeed with the same manager state. *)
Theorem losses_accumulate
        (id : Z) (s : TradingRiskManager)
        (Hzero : (cumulative_loss s id =? 0)%float = true) :
  let r1 := checkDailyLossLimits id 100000%float s in
  let r2 := checkDailyLossLimits id 450000%float (state_after r1) in
  let q1 := checkDailyLossLimits id 450000%float s in
  let q2 := checkDailyLossLimits id 100000%float (state_after q1) in
  cumulative_loss (state_after r1) id = 100000%float
  /\ returned r1 = true
  /\ cumulative_loss (state_after r2) id = 550000%float
  /\ returned r2 = false
  /\ cumulative_loss (state_after q2) id = 550000%float
  /\ state_after q2 = state_after r2.
Proof.
  cbv zeta.
  assert (H1 : (cumulative_loss s id + 100000)%float = 100000%float).
  { apply zero_add_finite; [exact Hzero|]. vm_compute; eauto. }
  assert (H4 : (cumulative_loss s id + 450000)%float = 450000%float).
  { apply zero_add_finite; [exact Hzero|]. vm_compute; eauto. }
  rewrite (checkDailyLossLimits_run id 100000%float s), H1.
  rewrite (checkDailyLossLimits_run id 450000%float s), H4.
  change (dgt 100000 MAX_DAILY_LOSS) with false.
  change (dgt 450000 MAX_DAILY_LOSS) with false.
  unfold state_after, returned. cbn [fst snd].
  rewrite !checkDailyLossLimits_run.
  rewrite !(proj2 (cumulative_loss_recorded _ _ _)).
  change (100000 + 450000)%float with 550000%float.
  change (450000 + 100000)%float with 550000%float.
  change (dgt 550000 MAX_DAILY_LOSS) with true.
  cbn [fst snd].
  rewrite !(proj2 (cumulative_loss_recorded _ _ _)).
  repeat split.
  unfold loss_recorded. cbn [daily_losses daily_trade_counts].
  rewrite !insert_insert_eq. reflexivity.
Qed.

Lemma losses_accumulate_witness :
  let r1 := checkDailyLossLimits 123 100000%float fresh in
  let r2 := checkDailyLossLimits 123 450000%float (state_after r1) in
  let q1 := checkDailyLossLimits 123 450000%float fresh in
  let q2 := checkDailyLossLimits 123 100000%float (state_after q1) in
  cumulative_loss (state_after r1) 123 = 100000%float
  /\ returned r1 = true
  /\ cumulative_loss (state_after r2) 123 = 550000%float
  /\ returned r2 = false
  /\ cumulative_loss (state_after q2) 123 = 550000%float
  /\ state_after q2 = state_after r2.
Proof.
  apply (losses_accumulate 123 fresh). vm_compute. reflexivity.
Defined.

(** * Risk score *)

(** The score is [base + v * 0.5], plus 0.3 for the two risky sectors,
    where [base] does not depend on the volatility score [v]. *)
Lemma calculateRiskScore_shape (trader : TraderProfile) (order : TradeOrder) :
  exists base : double,
    is_finite (Prim2SF base) = true
    /\ forall v,
        calculateRiskScore trader (with_volatility order v)
        = if (sector order =? "BIOTECH")%string
             || (sector order =? "CRYPTO")%string
          then (base + v * 0.5 + 0.3)%float
          else (base + v * 0.5)%float.
Proof.
  unfold calculateRiskScore, with_volatility.
  cbn [quantity price volatility_score sector].
  destruct (experience_years trader <? 3);
    destruct (dlt (account_balance trader) 100000);
    destruct (dgt (quantity order * price order) (account_balance trader * 0.1));
    eexists; (split; [|intros v; reflexivity]); vm_compute; reflexivity.
Qed.

(** C8: the risk score is monotonically non-decreasing in the volatility
    score.  For every trader and every two orders that differ in the
    volatility score only, [v1 <= v2] gives
    [calculateRiskScore] at [v1] [<=] [calculateRiskScore] at [v2], in
    binary64 arithmetic ([<=] is the comparison of doubles, so neither
    score is a NaN). *)
Theorem risk_score_monotone
        (trader : TraderProfile) (order : TradeOrder) (v1 v2 : double)
        (Hle : (v1 <=? v2)%float = true) :
  (calculateRiskScore trader (with_volatility order v1)
   <=? calculateRiskScore trader (with_volatility order v2))%float = true.
Proof.
  destruct (calculateRiskScore_shape trader order) as (base & Hfin & Hshape).
  rewrite !Hshape.
  assert (Hsum : (base + v1 * 0.5 <=? base + v2 * 0.5)%float = true)
    by (apply add_const_l_mono; [exact Hfin | apply mul_half_mono, Hle]).
  destruct ((sector order =? "BIOTECH")%string || (sector order =? "CRYPTO")%string).
  - apply add_const_r_mono; [reflexivity | exact Hsum].
  - exact Hsum.
Qed.

Lemma risk_score_monotone_witness :
  (calculateRiskScore sample_trader (with_volatility sample_order 0.3)
   <=? calculateRiskScore sample_trader (with_volatility sample_order 0.9))%float
  = true.
Proof.
  apply (risk_score_monotone sample_trader sample_order 0.3%float 0.9%float).
  vm_compute. reflexivity.
Defined.

(** * The methods that only read *)

Lemma keeps_ret {A} (a : A) : keeps_state (mret a).
Proof. intros s. reflexivity. Qed.

Lemma keeps_cout (msg : string) : keeps_state (cout msg).
Proof. intros s. reflexivity. Qed.

Lemma keeps_bind {A B} (m : M A) (f : A -> M B) :
  keeps_state m -> (forall a, keeps_state (f a)) -> keeps_state (m ≫= f).
Proof.
  intros Hm Hf s. unfold mbind, M_bind, state_after.
  specialize (Hm s). unfold state_after in Hm.
  destruct (m s) as [[a s1] o1]. cbn in Hm. subst s1.
  specialize (Hf a s). unfold state_after in Hf.
  destruct (f a s) as [[b s2] o2]. exact Hf.
Qed.

Lemma keeps_if {A} (c : bool) (m1 m2 : M A) :
  keeps_state m1 -> keeps_state m2 -> keeps_state (if c then m1 else m2).
Proof. destruct c; auto. Qed.

Lemma keeps_when (c : bool) (m : M unit) :
  keeps_state m -> keeps_state (when c m).
Proof. intros H. unfold when. apply keeps_if; [exact H | apply keeps_ret]. Qed.

Create HintDb keeps.
#[local] Hint Resolve keeps_ret keeps_cout keeps_when keeps_if : keeps.
#[local] Hint Extern 2 (keeps_state (_ ≫= _)) =>
  apply keeps_bind; [|intros ?] : keeps.

Lemma keeps_position_size_limits (total : double)
      (positions : list PortfolioPosition) :
  keeps_state (position_size_limits total positions).
Proof.
  induction positions as [|p ps IH]; cbn [position_size_limits];
    auto 10 with keeps.
Qed.

Lemma keeps_validatePortfolioRisk (c_abs : double -> double)
      (positions : list PortfolioPosition) (trader : TraderProfile) :
  keeps_state (validatePortfolioRisk c_abs positions trader).
Proof.
  unfold validatePortfolioRisk, loss_size_and_exposure_checks,
    leverage_and_margin_checks.
  apply keeps_bind.
  - apply keeps_bind; [auto with keeps|intros _].
    apply keeps_bind; [apply keeps_position_size_limits|].
    intros [b|]; auto 10 with keeps.
  - intros [b|]; auto 10 with keeps.
Qed.

Lemma keeps_validateTraderEligibility (trader : TraderProfile) :
  keeps_state (validateTraderEligibility trader).
Proof. unfold validateTraderEligibility. auto 12 with keeps. Qed.

Lemma keeps_checkMarketConditions (vix : double) (status : string) :
  keeps_state (checkMarketConditions vix status).
Proof. unfold checkMarketConditions. auto 12 with keeps. Qed.

Lemma keeps_assessClientSuitability (trader : TraderProfile) (product : string) :
  keeps_state (assessClientSuitability trader product).
Proof. unfold assessClientSuitability. auto 12 with keeps. Qed.

Lemma keeps_validateOrderExecution (order : TradeOrder) (venue : string) :
  keeps_state (validateOrderExecution order venue).
Proof. unfold validateOrderExecution. auto 12 with keeps. Qed.

(** X1: five of the seven methods never touch the manager: whatever the
    arguments, the state after [validateTraderEligibility],
    [validatePortfolioRisk], [checkMarketConditions],
    [assessClientSuitability] and [validateOrderExecution] is the state
    before. *)
Theorem read_only_methods
        (c_abs : double -> double) (s : TradingRiskManager)
        (trader : TraderProfile) (order : TradeOrder)
        (positions : list PortfolioPosition)
        (vix : double) (status product venue : string) :
  state_after (validateTraderEligibility trader s) = s
  /\ state_after (validatePortfolioRisk c_abs positions trader s) = s
  /\ state_after (checkMarketConditions vix status s) = s
  /\ state_after (assessClientSuitability trader product s) = s
  /\ state_after (validateOrderExecution order venue s) = s.
Proof.
  split; [apply keeps_validateTraderEligibility|].
  split; [apply keeps_validatePortfolioRisk|].
  split; [apply keeps_checkMarketConditions|].
  split; [apply keeps_assessClientSuitability|].
  apply keeps_validateOrderExecution.
Qed.

(** * The trades-today counts are never written *)

(** A line that differs from every line of a list is not in it. *)
Lemma not_in_by_eqb (x : string) (l : list string) :
  existsb (String.eqb x) l = false -> ~ In x l.
Proof.
  intros H Hin.
  assert (Ht : existsb (String.eqb x) l = true).
  { apply existsb_exists. exists x. split; [exact Hin | apply String.eqb_refl]. }
  congruence.
Qed.

Lemma trades_today_entry_created (s : TradingRiskManager) (i id : Z) :
  trades_today (entry_created s i) id = trades_today s id.
Proof.
  unfold entry_created, trades_today.
  destruct (daily_trade_counts s !! i) eqn:Hi; [reflexivity|].
  cbn [daily_trade_counts].
  destruct (decide (i = id)) as [<-|Hne].
  - rewrite lookup_insert_eq, Hi. reflexivity.
  - rewrite lookup_insert_ne by exact Hne. reflexivity.
Qed.

Lemma trades_today_run_call (c_abs : double -> double) (c : Call)
      (s : TradingRiskManager) (id : Z) :
  trades_today (state_after (run_call c_abs c s)) id = trades_today s id.
Proof.
  destruct c; cbn [run_call].
  - rewrite keeps_validateTraderEligibility. reflexivity.
  - destruct (state_after_validateTradeOrder order trader s) as [-> | ->];
      [reflexivity | apply trades_today_entry_created].
  - rewrite keeps_validatePortfolioRisk. reflexivity.
  - rewrite keeps_checkMarketConditions. reflexivity.
  - rewrite checkDailyLossLimits_run. cbv zeta.
    destruct (dgt _ MAX_DAILY_LOSS); reflexivity.
  - rewrite keeps_assessClientSuitability. reflexivity.
  - rewrite keeps_validateOrderExecution. reflexivity.
Qed.

(** X2: no method ever writes a trades-today count.  After any sequence
    of calls of the public methods the count of every trader is what it
    was before; so on a manager that started fresh every count is 0, the
    daily trade limit rule of [validateTradeOrder] never rejects and its
    line is never printed. *)
Theorem trade_counts_never_written (c_abs : double -> double) (calls : list Call) :
  (forall s id,
      trades_today (state_after_calls c_abs calls s) id = trades_today s id)
  /\ (forall order trader,
         let s := state_after_calls c_abs calls fresh in
         trades_today s (trader_id trader) = 0
         /\ first_rejection order trader (trades_today s (trader_id trader))
            <> Some DailyTradeLimit
         /\ ~ In (reason DailyTradeLimit)
                 (printed (validateTradeOrder order trader s))).
Proof.
  assert (Hall : forall s id,
             trades_today (state_after_calls c_abs calls s) id
             = trades_today s id).
  { unfold state_after_calls.
    induction calls as [|c cs IH]; intros s id; cbn [fold_left].
    - reflexivity.
    - rewrite IH. apply trades_today_run_call. }
  split; [exact Hall|].
  intros order trader. cbv zeta.
  assert (H0 : trades_today (state_after_calls c_abs calls fresh)
                            (trader_id trader) = 0)
    by (rewrite Hall; reflexivity).
  assert (Hne : first_rejection order trader 0 <> Some DailyTradeLimit).
  { intros H. apply first_rejection_spec in H as [H _]. discriminate H. }
  split; [exact H0|]. rewrite validateTradeOrder_run, H0.
  split; [exact Hne|].
  unfold sector_info.
  destruct (first_rejection order trader 0) as [rule|];
    [destruct rule; try (exfalso; apply Hne; reflexivity)|];
    destruct (negb (sector order =? "DIVERSIFIED")%string);
    apply not_in_by_eqb; vm_compute; reflexivity.
Qed.

(** X3: validating the same order twice in a row gives the same answer:
    the second call returns the same flag, prints the same lines and
    leaves the manager as the first call left it. *)
Theorem validateTradeOrder_idempotent
        (order : TradeOrder) (trader : TraderProfile) (s : TradingRiskManager) :
  let r1 := validateTradeOrder order trader s in
  let r2 := validateTradeOrder order trader (state_after r1) in
  returned r2 = returned r1
  /\ printed r2 = printed r1
  /\ state_after r2 = state_after r1.
Proof.
  cbv zeta.
  assert (Hcount : trades_today (state_after (validateTradeOrder order trader s))
                                (trader_id trader)
                   = trades_today s (trader_id trader))
    by apply (trades_today_run_call (fun x => x) (CallOrder order trader)).
  rewrite (validateTradeOrder_run order trader (state_after _)), Hcount.
  rewrite (validateTradeOrder_run order trader s).
  assert (Hidem : entry_created (entry_created s (trader_id trader))
                                (trader_id trader)
                  = entry_created s (trader_id trader)).
  { unfold entry_created at 2 3.
    destruct (daily_trade_counts s !! trader_id trader) eqn:Hl.
    - unfold entry_created. rewrite Hl. reflexivity.
    - unfold entry_created. cbn [daily_trade_counts].
      rewrite lookup_insert_eq. reflexivity. }
  destruct (first_rejection order trader (trades_today s (trader_id trader)))
    as [rule|]; [destruct (before_count rule)|];
    unfold returned, printed, state_after; cbn [fst snd];
    rewrite ?Hidem; repeat split.
Qed.

(** * Client suitability *)

Lemma not_in_eqb (x y : string) (l : list string) :
  ~ In x l -> In y l -> (x =? y)%string = false.
Proof.
  intros Hx Hy. apply String.eqb_neq. intros ->. exact (Hx Hy).
Qed.

(** X4: a product type that [assessClientSuitability] has no rule for
    (any string other than the five it names) is suitable for every
    trader, without a line of output. *)
Theorem unknown_product_suitable
        (trader : TraderProfile) (product : string) (s : TradingRiskManager)
        (Hunknown : ~ In product restricted_products) :
  assessClientSuitability trader product s = (true, s, []).
Proof.
  unfold assessClientSuitability.
  rewrite !(not_in_eqb product _ restricted_products Hunknown)
    by (unfold restricted_products; cbn [In]; auto 10).
  reflexivity.
Qed.

Lemma unknown_product_suitable_witness :
  assessClientSuitability low_tier_trader "MUNICIPAL_BONDS" fresh
  = (true, fresh, []).
Proof.
  apply (unknown_product_suitable low_tier_trader "MUNICIPAL_BONDS" fresh).
  apply not_in_by_eqb. vm_compute. reflexivity.
Defined.

(** X5: a proprietary trader with five or more years of experience whose
    jurisdiction is neither NY nor RESTRICTED_CRYPTO is suitable for every
    product type, accredited or not. *)
Theorem proprietary_trader_suitable
        (trader : TraderProfile) (product : string) (s : TradingRiskManager)
        (Htype : trader_type trader = "PROPRIETARY")
        (Hexp : 5 <= experience_years trader)
        (Hny : jurisdiction trader <> "NY")
        (Hrc : jurisdiction trader <> "RESTRICTED_CRYPTO") :
  assessClientSuitability trader product s = (true, s, []).
Proof.
  unfold assessClientSuitability. rewrite Htype.
  change ("PROPRIETARY" =? "RETAIL")%string with false.
  change ("PROPRIETARY" =? "PROPRIETARY")%string with true.
  apply String.eqb_neq in Hny, Hrc. rewrite Hny, Hrc.
  assert (He : (experience_years trader <? 5) = false)
    by (apply Z.ltb_ge; lia).
  rewrite He. cbn [negb andb orb]. rewrite !andb_false_r. reflexivity.
Qed.

Lemma proprietary_trader_suitable_witness :
  assessClientSuitability prop_trader "DERIVATIVES" fresh = (true, fresh, []).
Proof.
  apply (proprietary_trader_suitable prop_trader "DERIVATIVES" fresh);
    try reflexivity; try (cbn; lia);
    apply String.eqb_neq; vm_compute; reflexivity.
Defined.

(** * Order execution *)

(** X6: [validateOrderExecution] rejects at the retail venue only: it
    returns [false] exactly when the venue is RETAIL_VENUE and the
    quantity exceeds 100,000, and the rejection line is then the last
    line printed; the two warnings never change the result.  At a dark
    pool or on the institutional network the order is never rejected and
    the dark-pool warning is never printed; a rejected order whose value
    exceeds 500,000 also gets the dark-pool warning. *)
Theorem execution_rejects_at_retail_venue_only
        (order : TradeOrder) (venue : string) (s : TradingRiskManager) :
  let r := validateOrderExecution order venue s in
  (returned r = false <->
     venue = "RETAIL_VENUE"
     /\ dgt (quantity order) (double_of_int 100000) = true)
  /\ (returned r = false -> last (printed r) = Some RETAIL_VENUE_LINE)
  /\ (venue = "DARK_POOL" \/ venue = "INSTITUTIONAL_NETWORK" ->
      returned r = true /\ ~ In DARK_POOL_LINE (printed r))
  /\ (returned r = false ->
      dgt (quantity order * price order)%float 500000%float = true ->
      In DARK_POOL_LINE (printed r)).
Proof.
  cbv zeta. unfold validateOrderExecution. unfold_M.
  destruct (venue =? "RETAIL_VENUE")%string eqn:Hretail.
  - apply String.eqb_eq in Hretail. subst venue.
    change ("RETAIL_VENUE" =? "DARK_POOL")%string with false.
    change ("RETAIL_VENUE" =? "INSTITUTIONAL_NETWORK")%string with false.
    cbn [negb andb].
    destruct (dgt (quantity order * price order) 500000);
      destruct ((order_type order =? "MARKET")%string && _);
      destruct (dgt (quantity order) (double_of_int 100000));
      cbn [fst snd app andb];
      (split; [split; [intros; try discriminate; auto
                      |intros [_ H]; try discriminate; reflexivity]|]);
      (split; [intros; try discriminate; reflexivity|]);
      (split; [intros [H|H]; discriminate H|]);
      intros; try discriminate; cbn; auto.
  - assert (Hne : venue <> "RETAIL_VENUE") by (apply String.eqb_neq; exact Hretail).
    cbn [andb].
    split; [split; [|intros [H _]; contradiction]|].
    { destruct (dgt _ 500000 && _), ((order_type order =? "MARKET")%string && _);
        cbn; discriminate. }
    split.
    { destruct (dgt _ 500000 && _), ((order_type order =? "MARKET")%string && _);
        cbn; discriminate. }
    split.
    + intros Hv.
      assert (Hd : negb (venue =? "DARK_POOL")%string
                   && negb (venue =? "INSTITUTIONAL_NETWORK")%string = false)
        by (destruct Hv as [-> | ->]; reflexivity).
      rewrite Hd, andb_false_r.
      destruct ((order_type order =? "MARKET")%string && _);
        cbn [fst snd app];
        (split; [reflexivity|]); apply not_in_by_eqb; vm_compute; reflexivity.
    + destruct (dgt _ 500000 && _), ((order_type order =? "MARKET")%string && _);
        cbn; discriminate.
Qed.

(** * Portfolio: the position cap *)

(** One round of the second loop. *)
Lemma position_size_limits_cons (total : double) (p : PortfolioPosition)
      (ps : list PortfolioPosition) (s : TradingRiskManager) :
  position_size_limits total (p :: ps) s
  = if dgt (current_value p) MAX_POSITION_SIZE
    then (Some false, s, [POSITION_CAP_LINE])
    else let '(r, s', o) := position_size_limits total ps s in
         (r, s',
          ((if dgt (current_value p) (total * 0.20)%float
            then [CONCENTRATION_LINE] else []) ++ o)%list).
Proof.
  cbn [position_size_limits].
  destruct (dgt (current_value p) MAX_POSITION_SIZE); [reflexivity|].
  unfold_M. destruct (dgt (current_value p) (total * 0.2)); cbn;
    destruct (position_size_limits total ps s) as [[r s'] o]; reflexivity.
Qed.

(** The loop prints concentration warnings only, then at most the cap
    violation, with which it returns [false]. *)
Lemma position_size_limits_lines (total : double)
      (positions : list PortfolioPosition) (s : TradingRiskManager) :
  exists lines,
    Forall (eq CONCENTRATION_LINE) lines
    /\ (position_size_limits total positions s = (None, s, lines)
        /\ Forall (fun p => dgt (current_value p) MAX_POSITION_SIZE = false)
                  positions
        \/ position_size_limits total positions s
           = (Some false, s, (lines ++ [POSITION_CAP_LINE])%list)
           /\ Exists (fun p => dgt (current_value p) MAX_POSITION_SIZE = true)
                     positions).
Proof.
  induction positions as [|p ps IH].
  - exists []. split; [constructor|]. left. split; [reflexivity|constructor].
  - rewrite position_size_limits_cons.
    destruct (dgt (current_value p) MAX_POSITION_SIZE) eqn:Hcap.
    + exists []. split; [constructor|]. right.
      split; [reflexivity | left; exact Hcap].
    + destruct IH as (lines & Hl & [[-> Hall] | [-> Hex]]).
      * exists ((if dgt (current_value p) (total * 0.20)%float
                 then [CONCENTRATION_LINE] else []) ++ lines)%list.
        split; [apply Forall_app; split;
                [destruct (dgt _ (total * 0.2)); repeat constructor
                |exact Hl]|].
        left. split; [reflexivity | constructor; assumption].
      * exists ((if dgt (current_value p) (total * 0.20)%float
                 then [CONCENTRATION_LINE] else []) ++ lines)%list.
        split; [apply Forall_app; split;
                [destruct (dgt _ (total * 0.2)); repeat constructor
                |exact Hl]|].
        right. split; [rewrite app_assoc; reflexivity | right; exact Hex].
Qed.

(** X7: the position cap is hard.  When some position is worth more than
    10,000,000, [validatePortfolioRisk] returns [false] whatever the
    trader and the other positions are, the cap violation is the last
    line it prints, and every line before it is the loss warning or a
    concentration warning: the exposure, leverage and margin rules are
    not reached. *)
Theorem oversized_position_rejected
        (c_abs : double -> double)
        (positions : list PortfolioPosition) (trader : TraderProfile)
        (s : TradingRiskManager)
        (Hover : Exists (fun p => dgt (current_value p) MAX_POSITION_SIZE = true)
                        positions) :
  let r := validatePortfolioRisk c_abs positions trader s in
  returned r = false
  /\ last (printed r) = Some POSITION_CAP_LINE
  /\ Forall (fun line => In line early_portfolio_lines) (printed r).
Proof.
  cbv zeta.
  destruct (position_size_limits_lines
              (total_portfolio_value (portfolio_metrics c_abs positions))
              positions s) as (lines & Hl & [[_ Hall] | [Hloop _]]).
  { exfalso. apply Exists_exists in Hover as (p & Hin & Hp).
    rewrite Forall_forall in Hall. specialize (Hall p Hin). congruence. }
  assert (H1 : In LOSS_WARNING_LINE early_portfolio_lines)
    by (unfold early_portfolio_lines; cbn [In]; auto).
  assert (H2 : In CONCENTRATION_LINE early_portfolio_lines)
    by (unfold early_portfolio_lines; cbn [In]; auto).
  assert (H3 : In POSITION_CAP_LINE early_portfolio_lines)
    by (unfold early_portfolio_lines; cbn [In]; auto).
  assert (Hlines : Forall (fun line => In line early_portfolio_lines)
                          (lines ++ [POSITION_CAP_LINE])%list).
  { apply Forall_app. split; [|repeat constructor; exact H3].
    eapply Forall_impl; [exact Hl|]. intros line <-. exact H2. }
  unfold validatePortfolioRisk, loss_size_and_exposure_checks. unfold_M.
  destruct (dgt (total_unrealized_loss (portfolio_metrics c_abs positions))
                (account_balance trader * 0.2));
    cbn; rewrite Hloop; cbn [fst snd app];
    rewrite ?app_nil_r;
    (split; [reflexivity|]).
  - split; [rewrite app_comm_cons; apply last_snoc|].
    constructor; [exact H1 | exact Hlines].
  - split; [apply last_snoc | exact Hlines].
Qed.

Lemma oversized_position_rejected_witness :
  let r := validatePortfolioRisk PrimFloat.abs oversized_positions
             sample_trader fresh in
  returned r = false
  /\ last (printed r) = Some POSITION_CAP_LINE
  /\ Forall (fun line => In line early_portfolio_lines) (printed r).
Proof.
  apply (oversized_position_rejected PrimFloat.abs oversized_positions
           sample_trader fresh).
  right. left. vm_compute. reflexivity.
Defined.

(** * Daily loss monitor: one trader at a time *)

Lemma state_after_checkDailyLossLimits (id : Z) (loss : double)
      (s : TradingRiskManager) :
  state_after (checkDailyLossLimits id loss s)
  = loss_recorded s id (cumulative_loss s id + loss)%float.
Proof.
  rewrite checkDailyLossLimits_run. cbv zeta.
  destruct (dgt _ MAX_DAILY_LOSS); reflexivity.
Qed.

Lemma cumulative_loss_recorded_other (s : TradingRiskManager) (id other : Z)
      (x : double) :
  other <> id ->
  daily_losses (loss_recorded s id x) !! other = daily_losses s !! other
  /\ cumulative_loss (loss_recorded s id x) other = cumulative_loss s other.
Proof.
  intros Hne. unfold cumulative_loss, loss_recorded. cbn [daily_losses].
  rewrite lookup_insert_ne by congruence. split; reflexivity.
Qed.

(** X8: [checkDailyLossLimits] writes the entry of its own trader and
    nothing else: the trade counts are untouched, and for every other
    trader the loss entry (present or absent) is the same after the call,
    rejected or not. *)
Theorem loss_recorded_for_one_trader
        (id : Z) (loss : double) (s : TradingRiskManager) :
  let s' := state_after (checkDailyLossLimits id loss s) in
  daily_trade_counts s' = daily_trade_counts s
  /\ daily_losses s' = <[id := (cumulative_loss s id + loss)%float]> (daily_losses s)
  /\ forall other, other <> id ->
       daily_losses s' !! other = daily_losses s !! other
       /\ cumulative_loss s' other = cumulative_loss s other.
Proof.
  cbv zeta. rewrite state_after_checkDailyLossLimits.
  split; [reflexivity|]. split; [reflexivity|].
  intros other Hne. apply cumulative_loss_recorded_other, Hne.
Qed.

Lemma record_losses_run (id : Z) (losses : list double) (s : TradingRiskManager) :
  cumulative_loss (record_losses id losses s) id
  = fold_left (fun total loss => (total + loss)%float) losses
              (cumulative_loss s id)
  /\ (forall other, other <> id ->
        cumulative_loss (record_losses id losses s) other
        = cumulative_loss s other)
  /\ daily_trade_counts (record_losses id losses s) = daily_trade_counts s.
Proof.
  unfold record_losses. revert s.
  induction losses as [|loss rest IH]; intros s; cbn [fold_left].
  - repeat split.
  - destruct (IH (state_after (checkDailyLossLimits id loss s)))
      as (Hsum & Hother & Hcounts).
    rewrite state_after_checkDailyLossLimits in *.
    split; [|split].
    + rewrite Hsum. f_equal. apply cumulative_loss_recorded.
    + intros other Hne. rewrite (Hother other Hne).
      apply cumulative_loss_recorded_other, Hne.
    + rewrite Hcounts. reflexivity.
Qed.

(** X9: recorded losses add up from left to right.  After a sequence of
    calls for one trader the cumulative loss is the running binary64 sum
    of the previous cumulative loss and the losses in call order, whether
    or not some of the calls rejected; other traders and the trade counts
    are unaffected. *)
Theorem recorded_losses_sum
        (id : Z) (losses : list double) (s : TradingRiskManager) :
  cumulative_loss (record_losses id losses s) id
  = fold_left (fun total loss => (total + loss)%float) losses
              (cumulative_loss s id)
  /\ (forall other, other <> id ->
        cumulative_loss (record_losses id losses s) other
        = cumulative_loss s other)
  /\ daily_trade_counts (record_losses id losses s) = daily_trade_counts s.
Proof. apply record_losses_run. Qed.

(** * Market conditions *)

(** X10: [checkMarketConditions] returns [false] exactly when the index
    is above 40 or the market is CLOSED, and prints one line then; the
    halt has precedence over the closed market.  Otherwise it returns
    [true], with one line in PRE_MARKET and none for any other status;
    an index that is not a number (NaN) never halts trading. *)
Theorem market_conditions_decision
        (vix : double) (status : string) (s : TradingRiskManager) :
  let r := checkMarketConditions vix status s in
  (returned r = false <-> dgt vix VIX_HALT_THRESHOLD = true \/ status = "CLOSED")
  /\ (dgt vix VIX_HALT_THRESHOLD = true -> r = (false, s, [HALT_LINE]))
  /\ (returned r = true ->
      printed r = if (status =? "PRE_MARKET")%string
                  then ["RESTRICTED: Limited pre-market trading allowed"]
                  else [])
  /\ (Prim2SF vix = S754_nan -> returned r = negb (status =? "CLOSED")%string).
Proof.
  cbv zeta. unfold checkMarketConditions. unfold_M.
  assert (Hnan : Prim2SF vix = S754_nan -> dgt vix VIX_HALT_THRESHOLD = false).
  { intros H. unfold dgt. rewrite ltb_spec, H.
    destruct (Prim2SF VIX_HALT_THRESHOLD); reflexivity. }
  destruct (dgt vix VIX_HALT_THRESHOLD) eqn:Hv.
  - cbn [fst snd]. repeat split; auto; try discriminate.
    intros H. specialize (Hnan H). discriminate.
  - destruct (status =? "CLOSED")%string eqn:Hc.
    + apply String.eqb_eq in Hc. subst status. cbn [fst snd negb].
      repeat split; auto; discriminate.
    + assert (Hne : status <> "CLOSED") by (apply String.eqb_neq; exact Hc).
      destruct (status =? "PRE_MARKET")%string; cbn [fst snd app negb];
        repeat split; auto; try discriminate; intros [H|H];
          try discriminate; contradiction.
Qed.

(** * More on the order of the doubles *)

(** On valid numbers that are not NaN, [<] is the strict order of the keys. *)
Lemma SFltb_skey (x y : spec_float) :
  valid_binary x = true -> valid_binary y = true ->
  is_nan x = false -> is_nan y = false ->
  (SFltb x y = true <-> skey x < skey y).
Proof.
  intros Vx Vy Nx Ny. pose proof KINF_pos as HK.
  destruct x as [sx|sx| |sx mx ex], y as [sy|sy| |sy my ey];
    try discriminate; cbn [valid_binary] in Vx, Vy;
    try (pose proof (skey_finite_range sx mx ex Vx) as Rx);
    try (pose proof (skey_finite_range sy my ey Vy) as Ry);
    unfold SFltb, SFcompare, skey, sgn.
  1-8: repeat match goal with b : bool |- _ => destruct b end;
    split; intros; try reflexivity; try discriminate; lia.
  - pose proof (ukey_le_iff mx my ex ey Vx Vy) as Rxy.
    pose proof (ukey_le_iff my mx ey ex Vy Vx) as Ryx.
    change (Pos.compare_cont Eq mx my) with (mx ?= my)%positive.
    destruct sx, sy.
    + destruct (Z.compare_spec ex ey) as [He|He|He];
        [destruct (Pos.compare_spec mx my) as [Hm|Hm|Hm]| |];
        cbn [CompOpp]; split; intros; try reflexivity; try discriminate; lia.
    + split; intros; try reflexivity; lia.
    + split; intros; try discriminate; lia.
    + destruct (Z.compare_spec ex ey) as [He|He|He];
        [destruct (Pos.compare_spec mx my) as [Hm|Hm|Hm]| |];
        split; intros; try reflexivity; try discriminate; lia.
Qed.

Lemma SFltb_nan_l (x y : spec_float) : SFltb x y = true -> is_nan x = false.
Proof. destruct x; try reflexivity. discriminate. Qed.

Lemma SFltb_nan_r (x y : spec_float) : SFltb x y = true -> is_nan y = false.
Proof. destruct x, y; try reflexivity; discriminate. Qed.

Section OrderOfDoubles.

Implicit Types a b c : double.

Lemma leb_key a b :
  is_nan (Prim2SF a) = false -> is_nan (Prim2SF b) = false ->
  ((a <=? b)%float = true <-> skey (Prim2SF a) <= skey (Prim2SF b)).
Proof.
  intros Na Nb. rewrite leb_spec.
  apply SFleb_skey; try apply Prim2SF_valid; assumption.
Qed.

Lemma ltb_key a b :
  is_nan (Prim2SF a) = false -> is_nan (Prim2SF b) = false ->
  ((a <? b)%float = true <-> skey (Prim2SF a) < skey (Prim2SF b)).
Proof.
  intros Na Nb. rewrite ltb_spec.
  apply SFltb_skey; try apply Prim2SF_valid; assumption.
Qed.

Lemma leb_not_nan a b :
  (a <=? b)%float = true ->
  is_nan (Prim2SF a) = false /\ is_nan (Prim2SF b) = false.
Proof.
  rewrite leb_spec. intros H.
  split; [eapply SFleb_nan_l | eapply SFleb_nan_r]; exact H.
Qed.

Lemma ltb_not_nan a b :
  (a <? b)%float = true ->
  is_nan (Prim2SF a) = false /\ is_nan (Prim2SF b) = false.
Proof.
  rewrite ltb_spec. intros H.
  split; [eapply SFltb_nan_l | eapply SFltb_nan_r]; exact H.
Qed.

Lemma leb_trans a b c :
  (a <=? b)%float = true -> (b <=? c)%float = true -> (a <=? c)%float = true.
Proof.
  intros Hab Hbc.
  destruct (leb_not_nan a b Hab) as [Na Nb].
  destruct (leb_not_nan b c Hbc) as [_ Nc].
  apply leb_key in Hab, Hbc; try assumption. apply leb_key; try assumption. lia.
Qed.

Lemma ltb_leb_trans a b c :
  (a <? b)%float = true -> (b <=? c)%float = true -> (a <? c)%float = true.
Proof.
  intros Hab Hbc.
  destruct (ltb_not_nan a b Hab) as [Na Nb].
  destruct (leb_not_nan b c Hbc) as [_ Nc].
  apply ltb_key in Hab; try assumption. apply leb_key in Hbc; try assumption.
  apply ltb_key; try assumption. lia.
Qed.

(** A number that is not below another one is at least that one, unless
    one of the two is a NaN. *)
Lemma not_ltb_leb a b :
  (a <? b)%float = false ->
  is_nan (Prim2SF a) = false -> is_nan (Prim2SF b) = false ->
  (b <=? a)%float = true.
Proof.
  intros H Na Nb. apply leb_key; try assumption.
  destruct (Z.le_gt_cases (skey (Prim2SF b)) (skey (Prim2SF a))) as [|Hlt];
    [assumption|].
  apply ltb_key in Hlt; try assumption. congruence.
Qed.

End OrderOfDoubles.

(** * Trader eligibility: the decision *)

Lemma is_nan_false_or (x : spec_float) : is_nan x = false \/ x = S754_nan.
Proof. destruct x; auto. Qed.

(** X11: [validateTraderEligibility] accepts exactly the traders with at
    least two years of experience, a balance that is not below 50,000, a
    jurisdiction other than RESTRICTED and SANCTIONED, and accreditation
    when the risk level is HIGH.  An accepted trader gets no output at
    all, and has a balance of at least 50,000 or a balance that is not a
    number (a NaN passes the balance rule); a rejected trader gets exactly
    one line, which starts with REJECTED. *)
Theorem eligibility_decision (trader : TraderProfile) (s : TradingRiskManager) :
  let r := validateTraderEligibility trader s in
  (returned r = true <->
     2 <= experience_years trader
     /\ dlt (account_balance trader) MIN_ACCOUNT_BALANCE = false
     /\ jurisdiction trader <> "RESTRICTED"
     /\ jurisdiction trader <> "SANCTIONED"
     /\ (risk_level trader = "HIGH" -> is_accredited trader = true))
  /\ (returned r = true ->
      printed r = []
      /\ ((MIN_ACCOUNT_BALANCE <=? account_balance trader)%float = true
          \/ Prim2SF (account_balance trader) = S754_nan))
  /\ (returned r = false ->
      exists line, printed r = [line] /\ is_rejection_line line = true).
Proof.
  cbv zeta. unfold validateTraderEligibility. unfold_M.
  change MIN_TRADING_EXPERIENCE with 2.
  destruct (Z.ltb_spec (experience_years trader) 2) as [Hexp|Hexp].
  { cbn [fst snd app]. split; [split; [discriminate|lia]|].
    split; [discriminate|]. intros _. eexists. split; reflexivity. }
  destruct (dlt (account_balance trader) MIN_ACCOUNT_BALANCE) eqn:Hbal.
  { cbn [fst snd app]. split; [split; [discriminate|intros (_ & H & _); discriminate]|].
    split; [discriminate|]. intros _. eexists. split; reflexivity. }
  destruct (jurisdiction trader =? "RESTRICTED")%string eqn:Hr.
  { apply String.eqb_eq in Hr. cbn [orb fst snd app].
    split; [split; [discriminate|intros (_ & _ & H & _); contradiction]|].
    split; [discriminate|]. intros _. eexists. split; reflexivity. }
  destruct (jurisdiction trader =? "SANCTIONED")%string eqn:Hs.
  { apply String.eqb_eq in Hs. cbn [orb fst snd app].
    split; [split; [discriminate|intros (_ & _ & _ & H & _); contradiction]|].
    split; [discriminate|]. intros _. eexists. split; reflexivity. }
  apply String.eqb_neq in Hr, Hs. cbn [orb].
  destruct (risk_level trader =? "HIGH")%string eqn:Hh.
  - apply String.eqb_eq in Hh.
    destruct (is_accredited trader) eqn:Hacc; cbn [negb andb].
    + assert (Hpdt : dlt (account_balance trader)
                         (double_of_int PATTERN_DAY_TRADER_LIMIT) = false).
      { destruct (dlt _ (double_of_int _)) eqn:H; [|reflexivity].
        apply below_pdt_limit_below_minimum in H. congruence. }
      rewrite Hpdt, andb_false_r. cbn [fst snd app].
      split; [split; [intros _; repeat split; auto; lia | reflexivity]|].
      split; [|discriminate]. intros _. split; [reflexivity|].
      destruct (is_nan_false_or (Prim2SF (account_balance trader))) as [Hn|Hn];
        [left|right; exact Hn].
      apply not_ltb_leb; [exact Hbal | exact Hn | reflexivity].
    + cbn [fst snd app].
      split; [split; [discriminate|]|].
      { intros (_ & _ & _ & _ & H). specialize (H Hh). discriminate. }
      split; [discriminate|]. intros _. eexists. split; reflexivity.
  - apply String.eqb_neq in Hh. cbn [andb].
    assert (Hpdt : dlt (account_balance trader)
                       (double_of_int PATTERN_DAY_TRADER_LIMIT) = false).
    { destruct (dlt _ (double_of_int _)) eqn:H; [|reflexivity].
      apply below_pdt_limit_below_minimum in H. congruence. }
    rewrite Hpdt, andb_false_r. cbn [fst snd app].
    split; [split; [intros _; repeat split; auto; try lia; contradiction
                   | reflexivity]|].
    split; [|discriminate]. intros _. split; [reflexivity|].
    destruct (is_nan_false_or (Prim2SF (account_balance trader))) as [Hn|Hn];
      [left|right; exact Hn].
    apply not_ltb_leb; [exact Hbal | exact Hn | reflexivity].
Qed.

(** * Daily loss monitor: suspension and NaN *)

(** Above the limit, a further non-negative loss keeps the total above it. *)
Lemma over_limit_stays_over (c loss : double) :
  dgt c MAX_DAILY_LOSS = true -> (0 <=? loss)%float = true ->
  dgt (c + loss)%float MAX_DAILY_LOSS = true.
Proof.
  unfold dgt. intros Hc Hl.
  destruct (is_finite (Prim2SF c)) eqn:Fc.
  - assert (Hc0 : (c + 0)%float = c).
    { apply Prim2SF_inj. rewrite add_spec. change (Prim2SF 0) with (S754_zero false).
      rewrite ltb_spec in Hc.
      change (Prim2SF MAX_DAILY_LOSS)
        with (S754_finite false 8589934592000000 (-34)) in Hc.
      destruct (Prim2SF c) as [[|]| | |]; try discriminate; reflexivity. }
    pose proof (add_const_l_mono c 0%float loss Fc Hl) as Hmono.
    rewrite Hc0 in Hmono. exact (ltb_leb_trans _ _ _ Hc Hmono).
  - rewrite ltb_spec in *. rewrite leb_spec in Hl. rewrite add_spec.
    change (Prim2SF 0) with (S754_zero false) in Hl.
    change (Prim2SF MAX_DAILY_LOSS)
      with (S754_finite false 8589934592000000 (-34)) in *.
    destruct (Prim2SF c) as [|[|]| |]; try discriminate.
    destruct (Prim2SF loss) as [[|]|[|]| |[|] ? ?]; try discriminate; reflexivity.
Qed.

(** X12: a suspension persists under further losses.  Once the cumulative
    loss of a trader exceeds 500,000, every call that records a loss of
    zero or more for that trader returns [false], prints the suspension
    line only, and leaves the cumulative loss above the limit. *)
Theorem suspension_persists
        (id : Z) (loss : double) (s : TradingRiskManager)
        (Hover : dgt (cumulative_loss s id) MAX_DAILY_LOSS = true)
        (Hloss : (0 <=? loss)%float = true) :
  let r := checkDailyLossLimits id loss s in
  returned r = false
  /\ printed r = [SUSPENDED_LINE]
  /\ dgt (cumulative_loss (state_after r) id) MAX_DAILY_LOSS = true.
Proof.
  cbv zeta. pose proof (over_limit_stays_over _ _ Hover Hloss) as Hnew.
  rewrite checkDailyLossLimits_run. cbv zeta. rewrite Hnew.
  unfold returned, printed, state_after. cbn [fst snd].
  rewrite (proj2 (cumulative_loss_recorded _ _ _)). auto.
Qed.

Lemma suspension_persists_witness :
  let s := loss_recorded fresh 123 600000%float in
  let r := checkDailyLossLimits 123 1000%float s in
  returned r = false
  /\ printed r = [SUSPENDED_LINE]
  /\ dgt (cumulative_loss (state_after r) 123) MAX_DAILY_LOSS = true.
Proof.
  apply (suspension_persists 123 1000%float (loss_recorded fresh 123 600000%float));
    vm_compute; reflexivity.
Defined.

Lemma add_nan (a b : double) :
  Prim2SF a = S754_nan \/ Prim2SF b = S754_nan -> Prim2SF (a + b) = S754_nan.
Proof.
  rewrite add_spec. intros [H|H]; rewrite H.
  - reflexivity.
  - destruct (Prim2SF a); reflexivity.
Qed.

Lemma dgt_nan (a b : double) : Prim2SF a = S754_nan -> dgt a b = false.
Proof.
  intros H. unfold dgt. rewrite ltb_spec, H. destruct (Prim2SF b); reflexivity.
Qed.

Lemma fold_add_nan (losses : list double) (c : double) :
  Prim2SF c = S754_nan ->
  Prim2SF (fold_left (fun total loss => (total + loss)%float) losses c)
  = S754_nan.
Proof.
  revert c. induction losses as [|l ls IH]; intros c Hc; cbn [fold_left].
  - exact Hc.
  - apply IH, add_nan. left. exact Hc.
Qed.

(** X13: a NaN disables the daily loss limit for good.  If the recorded
    loss or the cumulative loss of the trader is not a number, the call
    returns [true] without a line and stores a NaN, and whatever losses
    are recorded afterwards the cumulative loss stays a NaN, so that no
    later call for this trader rejects or warns either. *)
Theorem nan_disables_loss_limit
        (id : Z) (loss : double) (s : TradingRiskManager)
        (Hnan : Prim2SF loss = S754_nan
                \/ Prim2SF (cumulative_loss s id) = S754_nan) :
  let r := checkDailyLossLimits id loss s in
  returned r = true
  /\ printed r = []
  /\ Prim2SF (cumulative_loss (state_after r) id) = S754_nan
  /\ forall later next,
       let s' := record_losses id later (state_after r) in
       Prim2SF (cumulative_loss s' id) = S754_nan
       /\ returned (checkDailyLossLimits id next s') = true
       /\ printed (checkDailyLossLimits id next s') = [].
Proof.
  cbv zeta.
  assert (Hrun : forall s0 l,
             Prim2SF (cumulative_loss s0 id + l)%float = S754_nan ->
             checkDailyLossLimits id l s0
             = (true, loss_recorded s0 id (cumulative_loss s0 id + l)%float, [])).
  { intros s0 l H. rewrite checkDailyLossLimits_run. cbv zeta.
    rewrite !(dgt_nan _ _ H). reflexivity. }
  assert (Hsum : Prim2SF (cumulative_loss s id + loss)%float = S754_nan)
    by (apply add_nan; tauto).
  rewrite (Hrun s loss Hsum).
  unfold returned, printed, state_after. cbn [fst snd].
  rewrite (proj2 (cumulative_loss_recorded _ _ _)).
  split; [reflexivity|]. split; [reflexivity|]. split; [exact Hsum|].
  intros later next.
  assert (Hlater : Prim2SF (cumulative_loss
                              (record_losses id later
                                 (loss_recorded s id (cumulative_loss s id + loss)%float))
                              id) = S754_nan).
  { rewrite (proj1 (record_losses_run _ _ _)).
    apply fold_add_nan. rewrite (proj2 (cumulative_loss_recorded _ _ _)).
    exact Hsum. }
  split; [exact Hlater|].
  rewrite Hrun by (apply add_nan; left; exact Hlater).
  split; reflexivity.
Qed.

Lemma nan_disables_loss_limit_witness :
  let r := checkDailyLossLimits 123 PrimFloat.nan fresh in
  returned r = true
  /\ printed r = []
  /\ Prim2SF (cumulative_loss (state_after r) 123) = S754_nan
  /\ forall later next,
       let s' := record_losses 123 later (state_after r) in
       Prim2SF (cumulative_loss s' 123) = S754_nan
       /\ returned (checkDailyLossLimits 123 next s') = true
       /\ printed (checkDailyLossLimits 123 next s') = [].
Proof.
  apply (nan_disables_loss_limit 123 PrimFloat.nan fresh).
  left. vm_compute. reflexivity.
Defined.

(** * Portfolio: no positions *)

Lemma SFltb_pack_zero (q f : Z) :
  SFltb (pack false q f) (S754_zero false) = false.
Proof.
  unfold pack.
  destruct (q =? 0); [reflexivity|].
  destruct (q =? two53); [destruct (f + 1 <=? 971); reflexivity|].
  destruct (f <=? 971); reflexivity.
Qed.

(** A fifth of a balance that is not negative is not negative. *)
Lemma fifth_not_negative (b : double) :
  dlt b 0 = false -> dlt (b * 0.20)%float 0 = false.
Proof.
  unfold dlt. rewrite !ltb_spec, mul_spec.
  change (Prim2SF 0) with (S754_zero false).
  change (Prim2SF 0.20) with (S754_finite false 7205759403792794 (-55)).
  destruct (Prim2SF b) as [[|]|[|]| |[|] m e]; try discriminate;
    try (intros _; reflexivity).
  intros _. unfold SF64mul. cbn [SFmul xorb]. rewrite Pos2Z.inj_mul.
  rewrite binary_round_aux_spec.
  - apply SFltb_pack_zero.
  - lia.
  - assert (Hlog : 52 <= Z.log2 (Z.pos m * 7205759403792794)).
    { apply Z.log2_le_pow2; [lia|]. change (2 ^ 52) with two52. lia. }
    unfold fexp64. lia.
Qed.

(** X14: a trader without positions passes.  With an empty portfolio and
    a balance that is not negative, [validatePortfolioRisk] returns [true]
    and prints nothing: no loss warning (0 is not above a fifth of the
    balance), no exposure violation, and the two ratios (0 / balance and
    balance / 0) trip no rule. *)
Theorem empty_portfolio_approved
        (c_abs : double -> double) (trader : TraderProfile)
        (s : TradingRiskManager)
        (Hbal : dlt (account_balance trader) 0 = false) :
  validatePortfolioRisk c_abs [] trader s = (true, s, []).
Proof.
  unfold validatePortfolioRisk, loss_size_and_exposure_checks, portfolio_metrics.
  cbn [fold_left total_portfolio_value total_unrealized_loss high_risk_exposure
       position_size_limits].
  assert (Hwarn : dgt 0 (account_balance trader * 0.20)%float = false)
    by (apply fifth_not_negative, Hbal).
  rewrite Hwarn.
  change (dgt 0 (0 * HIGH_RISK_THRESHOLD)%float) with false.
  unfold_M. cbn.
  rewrite (ratio_checks_pass_at_zero 0%float (account_balance trader) s)
    by (reflexivity || exact Hbal).
  reflexivity.
Qed.

Lemma empty_portfolio_approved_witness :
  validatePortfolioRisk PrimFloat.abs [] sample_trader fresh = (true, fresh, []).
Proof.
  apply (empty_portfolio_approved PrimFloat.abs sample_trader fresh).
  vm_compute. reflexivity.
Defined.

(** * Risk score: bounds *)

Lemma with_own_volatility (order : TradeOrder) :
  with_volatility order (volatility_score order) = order.
Proof. destruct order. reflexivity. Qed.

(** The part of the score that does not depend on the volatility lies
    between 0 and 0.9, and so the whole score is bounded at the two ends
    of the volatility range. *)
Lemma calculateRiskScore_base (trader : TraderProfile) (order : TradeOrder) :
  exists base : double,
    is_finite (Prim2SF base) = true
    /\ (0 <=? base + 0 * 0.5)%float = true
    /\ (base + 1 * 0.5 + 0.3 <=? 1.7)%float = true
    /\ (base + 1 * 0.5 <=? 1.7)%float = true
    /\ (0 <=? base + 0 * 0.5 + 0.3)%float = true
    /\ forall v,
        calculateRiskScore trader (with_volatility order v)
        = if (sector order =? "BIOTECH")%string
             || (sector order =? "CRYPTO")%string
          then (base + v * 0.5 + 0.3)%float
          else (base + v * 0.5)%float.
Proof.
  unfold calculateRiskScore, with_volatility.
  cbn [quantity price volatility_score sector].
  destruct (experience_years trader <? 3);
    destruct (dlt (account_balance trader) 100000);
    destruct (dgt (quantity order * price order) (account_balance trader * 0.1));
    eexists;
    (refine (conj _ (conj _ (conj _ (conj _ (conj _ _)))));
     [..|intros v; reflexivity]);
    vm_compute; reflexivity.
Qed.

(** X15: the risk score is bounded on the documented volatility range.
    For every trader and every order whose volatility score lies between
    0 and 1, [calculateRiskScore] returns a number between 0 and 1.7 (the
    sum of all five factors), never a NaN. *)
Theorem risk_score_bounds
        (trader : TraderProfile) (order : TradeOrder)
        (Hlow : (0 <=? volatility_score order)%float = true)
        (Hhigh : (volatility_score order <=? 1)%float = true) :
  (0 <=? calculateRiskScore trader order)%float = true
  /\ (calculateRiskScore trader order <=? 1.7)%float = true.
Proof.
  destruct (calculateRiskScore_base trader order)
    as (base & Hfin & B0 & B1s & B1 & B0s & Hshape).
  rewrite <- (with_own_volatility order), Hshape.
  set (v := volatility_score order) in *.
  assert (L : (base + 0 * 0.5 <=? base + v * 0.5)%float = true)
    by (apply add_const_l_mono; [exact Hfin | apply mul_half_mono, Hlow]).
  assert (U : (base + v * 0.5 <=? base + 1 * 0.5)%float = true)
    by (apply add_const_l_mono; [exact Hfin | apply mul_half_mono, Hhigh]).
  destruct ((sector order =? "BIOTECH")%string || (sector order =? "CRYPTO")%string).
  - split.
    + eapply leb_trans; [exact B0s|].
      apply add_const_r_mono; [reflexivity | exact L].
    + eapply leb_trans; [|exact B1s].
      apply add_const_r_mono; [reflexivity | exact U].
  - split.
    + eapply leb_trans; [exact B0 | exact L].
    + eapply leb_trans; [exact U | exact B1].
Qed.

Lemma risk_score_bounds_witness :
  (0 <=? calculateRiskScore sample_trader sample_order)%float = true
  /\ (calculateRiskScore sample_trader sample_order <=? 1.7)%float = true.
Proof.
  apply (risk_score_bounds sample_trader sample_order); vm_compute; reflexivity.
Defined.

(** * The portfolio check as a whole *)

(** The four outcomes of the leverage and margin rules: a margin ratio
    below 0.10 is below 0.25, so the liquidation line never comes without
    the margin call. *)
Lemma leverage_and_margin_checks_cases (total balance : double)
      (s : TradingRiskManager) :
  let r := leverage_and_margin_checks total balance s in
  r = (false, s, [LEVERAGE_LINE])
  \/ r = (false, s, [MARGIN_CALL_LINE; FORCED_LIQUIDATION_LINE])
  \/ r = (true, s, [MARGIN_CALL_LINE])
  \/ r = (true, s, []).
Proof.
  cbv zeta. unfold leverage_and_margin_checks. unfold_M.
  destruct (dgt (leverage_ratio total balance) MAX_LEVERAGE_RATIO);
    [left; reflexivity|right].
  destruct (dlt (margin_equity_ratio total balance) FORCED_LIQUIDATION) eqn:Hf.
  - assert (Hm : dlt (margin_equity_ratio total balance) MARGIN_CALL_THRESHOLD
                 = true).
    { unfold dlt in *. eapply ltb_leb_trans; [exact Hf|].
      vm_compute. reflexivity. }
    rewrite Hm. left. reflexivity.
  - right.
    destruct (dlt (margin_equity_ratio total balance) MARGIN_CALL_THRESHOLD);
      [left|right]; reflexivity.
Qed.

(** The whole method in terms of its two loops and the ratio rules. *)
Lemma validatePortfolioRisk_run (c_abs : double -> double)
      (positions : list PortfolioPosition) (trader : TraderProfile)
      (s : TradingRiskManager) :
  let m := portfolio_metrics c_abs positions in
  let warning :=
    if dgt (total_unrealized_loss m) (account_balance trader * 0.20)%float
    then [LOSS_WARNING_LINE] else [] in
  let '(r, _, o) := position_size_limits (total_portfolio_value m) positions s in
  validatePortfolioRisk c_abs positions trader s
  = match r with
    | Some b => (b, s, (warning ++ o)%list)
    | None =>
        if dgt (high_risk_exposure m)
               (total_portfolio_value m * HIGH_RISK_THRESHOLD)%float
        then (false, s, (warning ++ o ++ [HIGH_RISK_LINE])%list)
        else let '(b, _, o') :=
               leverage_and_margin_checks (total_portfolio_value m)
                                          (account_balance trader) s in
             (b, s, (warning ++ o ++ o')%list)
    end.
Proof.
  cbv zeta.
  pose proof (keeps_position_size_limits
                (total_portfolio_value (portfolio_metrics c_abs positions))
                positions s) as Hk.
  pose proof (leverage_and_margin_checks_cases
                (total_portfolio_value (portfolio_metrics c_abs positions))
                (account_balance trader) s) as Hr.
  cbv zeta in Hr.
  unfold validatePortfolioRisk, loss_size_and_exposure_checks. unfold_M.
  destruct (dgt (total_unrealized_loss (portfolio_metrics c_abs positions))
                (account_balance trader * 0.2));
    cbn;
    destruct (position_size_limits _ positions s) as [[r s'] o];
    unfold state_after in Hk; cbn [fst snd] in Hk; subst s';
    destruct r as [b|]; cbn [fst snd app];
    rewrite ?app_nil_r; try reflexivity;
    (destruct (_ <? high_risk_exposure (portfolio_metrics c_abs positions))%float;
     cbn [fst snd app]; rewrite ?app_nil_r; [reflexivity|]);
    destruct Hr as [-> | [-> | [-> | ->]]]; cbn [fst snd app];
    rewrite ?app_nil_r; reflexivity.
Qed.

(** Without a high-risk position the exposure accumulator stays where it
    started. *)
Lemma high_risk_exposure_fold (c_abs : double -> double)
      (positions : list PortfolioPosition) (a : Metrics) :
  Forall (fun p => risk_category p <> "HIGH_RISK") positions ->
  high_risk_exposure (fold_left (metrics_step c_abs) positions a)
  = high_risk_exposure a.
Proof.
  revert a. induction positions as [|p ps IH]; intros a Hall; [reflexivity|].
  inversion Hall as [|? ? Hp Hps]; subst.
  cbn [fold_left]. rewrite IH by exact Hps.
  unfold metrics_step. cbn [high_risk_exposure].
  apply String.eqb_neq in Hp. rewrite Hp. reflexivity.
Qed.

(** X16: a net short portfolio is rejected for an exposure it does not
    have.  When no position is in the HIGH_RISK category (the exposure is
    the initial 0) and 75% of the total value is negative,
    [validatePortfolioRisk] returns [false] for every trader: 0 exceeds
    the negative threshold.  When moreover no position is over the
    position cap, the high-risk violation is the last line printed. *)
Theorem net_short_portfolio_rejected
        (c_abs : double -> double)
        (positions : list PortfolioPosition) (trader : TraderProfile)
        (s : TradingRiskManager)
        (Hnone : Forall (fun p => risk_category p <> "HIGH_RISK") positions)
        (Hshort : dlt (total_portfolio_value (portfolio_metrics c_abs positions)
                       * HIGH_RISK_THRESHOLD)%float 0%float = true) :
  let r := validatePortfolioRisk c_abs positions trader s in
  returned r = false
  /\ (Forall (fun p => dgt (current_value p) MAX_POSITION_SIZE = false)
             positions ->
      last (printed r) = Some HIGH_RISK_LINE).
Proof.
  cbv zeta.
  pose proof (validatePortfolioRisk_run c_abs positions trader s) as Hrun.
  cbv zeta in Hrun.
  assert (Hexp : high_risk_exposure (portfolio_metrics c_abs positions)
                 = 0%float).
  { unfold portfolio_metrics. rewrite high_risk_exposure_fold by exact Hnone.
    reflexivity. }
  rewrite Hexp in Hrun. unfold dlt in Hshort. unfold dgt at 2 in Hrun.
  rewrite Hshort in Hrun.
  destruct (position_size_limits_lines
              (total_portfolio_value (portfolio_metrics c_abs positions))
              positions s) as (lines & Hl & [[Hloop _] | [Hloop Hex]]);
    rewrite Hloop in Hrun; rewrite Hrun; cbn [returned printed fst snd].
  - split; [reflexivity|]. intros _.
    rewrite !app_assoc. apply last_snoc.
  - split; [reflexivity|]. intros Hall. exfalso.
    apply Exists_exists in Hex as (p & Hin & Hp).
    rewrite Forall_forall in Hall. specialize (Hall p Hin). congruence.
Qed.

Lemma net_short_portfolio_rejected_witness :
  let r := validatePortfolioRisk PrimFloat.abs net_short_positions
                                 sample_trader fresh in
  returned r = false /\ last (printed r) = Some HIGH_RISK_LINE.
Proof.
  cbv zeta.
  assert (Hnone : Forall (fun p => risk_category p <> "HIGH_RISK")
                         net_short_positions).
  { repeat constructor. cbn. discriminate. }
  assert (Hcap : Forall (fun p => dgt (current_value p) MAX_POSITION_SIZE
                                  = false) net_short_positions).
  { repeat constructor. }
  destruct (net_short_portfolio_rejected PrimFloat.abs net_short_positions
              sample_trader fresh Hnone) as [Hr Hlast].
  - vm_compute. reflexivity.
  - split; [exact Hr | exact (Hlast Hcap)].
Defined.

(** X17: liquidation comes with its margin call.  Whenever
    [validatePortfolioRisk] prints the forced liquidation line it returns
    [false], and the line is the last one printed, immediately after the
    margin call line. *)
Theorem forced_liquidation_follows_margin_call
        (c_abs : double -> double)
        (positions : list PortfolioPosition) (trader : TraderProfile)
        (s : TradingRiskManager) :
  let r := validatePortfolioRisk c_abs positions trader s in
  In FORCED_LIQUIDATION_LINE (printed r) ->
  returned r = false
  /\ exists lines,
       printed r = (lines ++ [MARGIN_CALL_LINE; FORCED_LIQUIDATION_LINE])%list.
Proof.
  cbv zeta.
  pose proof (validatePortfolioRisk_run c_abs positions trader s) as Hrun.
  cbv zeta in Hrun.
  pose proof (leverage_and_margin_checks_cases
                (total_portfolio_value (portfolio_metrics c_abs positions))
                (account_balance trader) s) as Hr.
  cbv zeta in Hr.
  set (warning := if dgt (total_unrealized_loss
                            (portfolio_metrics c_abs positions))
                         (account_balance trader * 0.20)%float
                  then [LOSS_WARNING_LINE] else []) in *.
  assert (Hw : ~ In FORCED_LIQUIDATION_LINE warning).
  { subst warning. destruct (dgt _ _); apply not_in_by_eqb; vm_compute;
      reflexivity. }
  assert (Hconc : forall lines, Forall (eq CONCENTRATION_LINE) lines ->
                                ~ In FORCED_LIQUIDATION_LINE lines).
  { intros lines Hl Hin. rewrite List.Forall_forall in Hl.
    specialize (Hl _ Hin). vm_compute in Hl. discriminate. }
  destruct (position_size_limits_lines
              (total_portfolio_value (portfolio_metrics c_abs positions))
              positions s) as (lines & Hl & [[Hloop _] | [Hloop _]]);
    rewrite Hloop in Hrun.
  - destruct (dgt (high_risk_exposure (portfolio_metrics c_abs positions)) _).
    + rewrite Hrun. cbn [returned printed fst snd]. intros Hin. exfalso.
      apply in_app_or in Hin as [Hin|Hin]; [exact (Hw Hin)|].
      apply in_app_or in Hin as [Hin|Hin]; [exact (Hconc _ Hl Hin)|].
      revert Hin. apply not_in_by_eqb. vm_compute. reflexivity.
    + destruct Hr as [Hr | [Hr | [Hr | Hr]]]; rewrite Hr in Hrun;
        rewrite Hrun; cbn [returned printed fst snd]; intros Hin.
      * exfalso.
        apply in_app_or in Hin as [Hin|Hin]; [exact (Hw Hin)|].
        apply in_app_or in Hin as [Hin|Hin]; [exact (Hconc _ Hl Hin)|].
        revert Hin. apply not_in_by_eqb. vm_compute. reflexivity.
      * split; [reflexivity|]. exists (warning ++ lines)%list.
        rewrite app_assoc. reflexivity.
      * exfalso.
        apply in_app_or in Hin as [Hin|Hin]; [exact (Hw Hin)|].
        apply in_app_or in Hin as [Hin|Hin]; [exact (Hconc _ Hl Hin)|].
        revert Hin. apply not_in_by_eqb. vm_compute. reflexivity.
      * exfalso.
        apply in_app_or in Hin as [Hin|Hin]; [exact (Hw Hin)|].
        apply in_app_or in Hin as [Hin|Hin]; [exact (Hconc _ Hl Hin)|].
        exact Hin.
  - rewrite Hrun. cbn [returned printed fst snd]. intros Hin. exfalso.
    apply in_app_or in Hin as [Hin|Hin]; [exact (Hw Hin)|].
    apply in_app_or in Hin as [Hin|Hin]; [exact (Hconc _ Hl Hin)|].
    revert Hin. apply not_in_by_eqb. vm_compute. reflexivity.
Qed.

Lemma forced_liquidation_follows_margin_call_witness :
  let r := validatePortfolioRisk PrimFloat.abs small_positions
                                 overdrawn_trader fresh in
  In FORCED_LIQUIDATION_LINE (printed r)
  /\ returned r = false
  /\ exists lines,
       printed r = (lines ++ [MARGIN_CALL_LINE; FORCED_LIQUIDATION_LINE])%list.
Proof.
  cbv zeta.
  assert (Hin : In FORCED_LIQUIDATION_LINE
                   (printed (validatePortfolioRisk PrimFloat.abs small_positions
                                                   overdrawn_trader fresh))).
  { vm_compute. right. right. right. left. reflexivity. }
  split; [exact Hin|].
  exact (forced_liquidation_follows_margin_call PrimFloat.abs small_positions
           overdrawn_trader fresh Hin).
Defined.
